(** * Chimera-Trunk run validator: [validators/validate_artifacts.py]

    A shallow embedding of [validate_run] and its helpers, and the
    properties of the cross-artifact consistency and authorization check.

    Conventions of the embedding.
    - A decoded JSON document is a [json] tree, as [json.loads] builds it:
      an object is the list of its members in key order, with distinct
      keys, looked up by key.
    - The file system is read only. It is a [filesystem] record of the three
      observations the code makes of a path: [Path.exists], [Path.is_dir]
      and the outcome of [json.loads(path.read_text(encoding="utf-8"))].
    - A path is the list of its components, innermost first, below the
      anchor [/]: [Path.parent] is the tail and [/] the empty list. The run
      path is taken absolute and resolved, so [Path.resolve] is the identity.
    - Effects are a value or a raised exception, together with the
      chronological log of file-system observations and printed lines. *)

From stdpp Require Import base option list strings pretty gmap sets.

Set Default Proof Using "Type".
Local Open Scope string_scope.
Local Open Scope list_scope.
Set Warnings "-register-all".

(** ** Strings *)

(** [s.startswith(p)]. *)
Fixpoint startswith (p s : string) : bool :=
  match p, s with
  | EmptyString, _ => true
  | String a p', String b s' => if decide (a = b) then startswith p' s' else false
  | String _ _, EmptyString => false
  end.

(** [needle in hay] for Python [str]. *)
Fixpoint contains (needle hay : string) : bool :=
  startswith needle hay ||
  match hay with
  | EmptyString => false
  | String _ hay' => contains needle hay'
  end.

(** [sep.join(parts)]. *)
Fixpoint join (sep : string) (parts : list string) : string :=
  match parts with
  | [] => ""
  | [s] => s
  | s :: rest => s +:+ sep +:+ join sep rest
  end.

(** ** JSON values, as [json.loads] returns them *)

(** A float is kept as the text [repr] gives it, which determines it. *)
Inductive json : Type :=
  | JNull
  | JBool (b : bool)
  | JInt (z : Z)
  | JFloat (repr : string)
  | JStr (s : string)
  | JArr (items : list json)
  | JObj (members : list (string * json)).

(** [repr] of a [str] object: the quoting and escaping chosen by the
    interpreter from the Unicode tables. It only shows when a container is
    coerced with [str]; the validator is stated for any such function. *)
Class StrRepr := str_repr : string → string.

(** [type(v).__name__]. *)
Definition type_name (v : json) : string :=
  match v with
  | JNull => "NoneType"
  | JBool _ => "bool"
  | JInt _ => "int"
  | JFloat _ => "float"
  | JStr _ => "str"
  | JArr _ => "list"
  | JObj _ => "dict"
  end.

(** [bool(v)]: the truth value used by [or], [and] and [not]. *)
Definition truthy (v : json) : bool :=
  match v with
  | JNull => false
  | JBool b => b
  | JInt z => negb (bool_decide (z = 0%Z))
  | JFloat r => negb (bool_decide (r = "0.0" ∨ r = "-0.0"))
  | JStr s => negb (bool_decide (s = ""))
  | JArr items => negb (bool_decide (items = []))
  | JObj members => negb (bool_decide (members = []))
  end.

Section Coercion.
Context `{StrRepr}.

(** [repr(v)]. *)
Fixpoint py_repr (v : json) : string :=
  match v with
  | JNull => "None"
  | JBool true => "True"
  | JBool false => "False"
  | JInt z => pretty z
  | JFloat r => r
  | JStr s => str_repr s
  | JArr items => "[" +:+ join ", " (map py_repr items) +:+ "]"
  | JObj members =>
      "{" +:+ join ", " (map (λ kv, str_repr (fst kv) +:+ ": " +:+ py_repr (snd kv)) members)
          +:+ "}"
  end.

(** [str(v)]: a [str] is itself, anything else is its [repr]. *)
Definition py_str (v : json) : string :=
  match v with
  | JStr s => s
  | _ => py_repr v
  end.
End Coercion.

(** ** Exceptions, events and the effect monad *)

Inductive exn_class : Type :=
  | FileNotFoundError
  | OSError          (* any other OSError: IsADirectoryError, PermissionError *)
  | ValueError       (* JSONDecodeError, UnicodeDecodeError *)
  | AttributeError.

Record exception : Type := Exc { exc_class : exn_class; exc_msg : string }.

Definition path : Type := list string.

Inductive event : Type :=
  | EvExists (p : path)
  | EvIsDir (p : path)
  | EvRead (p : path)
  | EvPrint (line : string).

(** A computation ends in a value or a raised exception and leaves a log. *)
Definition M (A : Type) : Type := (exception + A) * list event.

Definition result {A} (m : M A) : exception + A := fst m.
Definition trace {A} (m : M A) : list event := snd m.

Global Instance M_ret : MRet M := λ A x, (inr x, []).
Global Instance M_bind : MBind M := λ A B f m,
  match m with
  | (inl e, log) => (inl e, log)
  | (inr x, log) => let r := f x in (fst r, log ++ snd r)
  end.

Definition raise {A} (e : exception) : M A := (inl e, []).
Definition emit (ev : event) : M unit := (inr tt, [ev]).

(** [try: x = m / except Exception as e: return h e / (then) k x]. *)
Definition try_except {A B} (m : M A) (h : exception → M B) (k : A → M B) : M B :=
  match m with
  | (inl e, log) => let r := h e in (fst r, log ++ snd r)
  | (inr x, log) => let r := k x in (fst r, log ++ snd r)
  end.

(** The lines written to standard output, in order. *)
Fixpoint stdout_of (log : list event) : list string :=
  match log with
  | [] => []
  | EvPrint line :: log' => line :: stdout_of log'
  | _ :: log' => stdout_of log'
  end.

Definition stdout {A} (m : M A) : list string := stdout_of (trace m).

(** The path an observation of the file system is made on. *)
Definition event_path (ev : event) : option path :=
  match ev with
  | EvExists p | EvIsDir p | EvRead p => Some p
  | EvPrint _ => None
  end.

(** ** The file system as the validator observes it *)

Record filesystem : Type := Filesystem {
  fs_exists : path → bool;               (* Path.exists *)
  fs_is_dir : path → bool;               (* Path.is_dir *)
  fs_load : path → exception + json      (* json.loads(Path.read_text(encoding="utf-8")) *)
}.

(** [p / name]. *)
Definition child (p : path) (name : string) : path := name :: p.
Infix "</>" := child (at level 40, left associativity).

(** [p.name]. *)
Definition path_name (p : path) : string :=
  match p with
  | [] => ""
  | name :: _ => name
  end.

(** [str(p)]. *)
Definition path_str (p : path) : string :=
  match p with
  | [] => "/"
  | _ => fold_right (λ c acc, "/" +:+ c +:+ acc) "" (rev p)
  end.

Definition path_exists (fs : filesystem) (p : path) : M bool :=
  emit (EvExists p);; mret (fs_exists fs p).

Definition path_is_dir (fs : filesystem) (p : path) : M bool :=
  emit (EvIsDir p);; mret (fs_is_dir fs p).

(** ** Messaging *)

Definition _err (message : string) : M bool :=
  emit (EvPrint message);; mret false.

Definition _ok (message : string) : M bool :=
  emit (EvPrint message);; mret true.

(** ** Helpers: I/O, discovery, schemas *)

Record ArtifactBundle : Type := {
  intent : json;
  instructions : json;
  diff : json
}.

(** The loop of [_find_project_root]: [cur] moves to its parent until the
    anchor has been tried, so the recursion is on the components of [cur]. *)
Fixpoint _find_project_root (fs : filesystem) (cur : path) : M (option path) :=
  found ← path_exists fs (cur </> "chimera.yaml");
  if found : bool then mret (Some cur)
  else match cur with
       | [] => mret None
       | _ :: parent => _find_project_root fs parent
       end.

Definition _load_yaml_json (fs : filesystem) (p : path) : M json :=
  emit (EvRead p);;
  match fs_load fs p with
  | inl e => raise e
  | inr v => mret v
  end.

Definition _load_json (fs : filesystem) (p : path) : M json :=
  emit (EvRead p);;
  match fs_load fs p with
  | inl e => raise e
  | inr v => mret v
  end.

(** [[p.name for p in paths if not p.exists()]]. *)
Fixpoint missing_names (fs : filesystem) (paths : list path) : M (list string) :=
  match paths with
  | [] => mret []
  | p :: paths' =>
      there ← path_exists fs p;
      rest ← missing_names fs paths';
      mret (if there : bool then rest else path_name p :: rest)
  end.

Definition _load_artifacts (fs : filesystem) (run_dir : path) : M ArtifactBundle :=
  let intent_path := run_dir </> "intent.json" in
  let instr_path := run_dir </> "instructions.json" in
  let diff_path := run_dir </> "diff.json" in
  missing ← missing_names fs [intent_path; instr_path; diff_path];
  if bool_decide (missing ≠ []) then
    raise (Exc FileNotFoundError ("Missing artifact file(s): " +:+ join ", " missing))
  else
    i ← _load_json fs intent_path;
    n ← _load_json fs instr_path;
    d ← _load_json fs diff_path;
    mret {| intent := i; instructions := n; diff := d |}.

Definition _schema_gate (artifacts : ArtifactBundle) : M bool := mret true.

(** Lookup of a key among the members of an object. *)
Fixpoint lookup_member (key : string) (members : list (string * json)) : option json :=
  match members with
  | [] => None
  | (k, v) :: members' => if decide (k = key) then Some v else lookup_member key members'
  end.

(** [d.get(key, default)]: only a [dict] has the method. *)
Definition py_get (d : json) (key : string) (default : json) : M json :=
  match d with
  | JObj members => mret (from_option id default (lookup_member key members))
  | _ => raise (Exc AttributeError
                  ("'" +:+ type_name d +:+ "' object has no attribute 'get'"))
  end.

Definition _ensure_list_of_strings `{StrRepr} (value : json) : list string :=
  match value with
  | JNull => []
  | JArr items => map py_str items
  | _ => [py_str value]
  end.

(** [str(a.get("run_id", ""))], the read of a run identifier. *)
Definition run_id_of `{StrRepr} (a : json) : M string :=
  v ← py_get a "run_id" (JStr "");
  mret (py_str v).

(** [str(a.get("author", {}).get(field, ""))], the read of an author field. *)
Definition author_field `{StrRepr} (a : json) (field : string) : M string :=
  author ← py_get a "author" (JObj []);
  v ← py_get author field (JStr "");
  mret (py_str v).

Definition _check_run_id_consistency `{StrRepr} (artifacts : ArtifactBundle) : M bool :=
  rid_intent ← run_id_of (intent artifacts);
  rid_instr ← run_id_of (instructions artifacts);
  rid_diff ← run_id_of (diff artifacts);
  if negb (bool_decide (rid_intent ≠ "") && bool_decide (rid_instr ≠ "")
           && bool_decide (rid_diff ≠ "")) then
    _err "Missing run_id in one or more artifacts (files: intent.json, instructions.json, diff.json)."
  else if negb (bool_decide (rid_intent = rid_instr) && bool_decide (rid_instr = rid_diff)) then
    _err ("Run ID mismatch across artifacts: intent='" +:+ rid_intent
          +:+ "', instructions='" +:+ rid_instr
          +:+ "', diff='" +:+ rid_diff +:+ "'.")
  else mret true.

(** ** Public API *)

(** [str(chimera_cfg.get("version", ""))]. *)
Definition config_version `{StrRepr} (chimera_cfg : json) : M string :=
  v ← py_get chimera_cfg "version" (JStr "");
  mret (py_str v).

(** The role sets of the configuration: [roles = chimera_cfg.get("roles") or {}]
    and the two sets built from [roles.get("TRUNK")] and [roles.get("BRANCH")]. *)
Definition config_roles `{StrRepr} (chimera_cfg : json) : M (gset string * gset string) :=
  r ← py_get chimera_cfg "roles" JNull;
  let roles := if truthy r then r else JObj [] in
  t ← py_get roles "TRUNK" JNull;
  let trunk_roles : gset string := list_to_set (_ensure_list_of_strings t) in
  b ← py_get roles "BRANCH" JNull;
  let branch_roles : gset string := list_to_set (_ensure_list_of_strings b) in
  mret (trunk_roles, branch_roles).

(** Step 4 of [validate_run], the cross-file checks on the loaded bundle. *)
Definition cross_file_checks `{StrRepr}
    (trunk_roles branch_roles : gset string) (artifacts : ArtifactBundle) : M bool :=
  (* 4a) Run ID consistency *)
  consistent ← _check_run_id_consistency artifacts;
  if negb consistent then mret false else
  (* 4b) Intent must be authored by TRUNK *)
  intent_author ← author_field (intent artifacts) "actor";
  intent_role ← author_field (intent artifacts) "role";
  if bool_decide (intent_role ≠ "TRUNK") then
    _err "Intent author role must be TRUNK (file: intent.json, field: author.role)."
  else if bool_decide (intent_author ∉ trunk_roles) then
    _err "Intent author is not a member of roles.TRUNK (file: intent.json, field: author.actor)."
  else
  (* 4c) Instructions + Diff must be authored by BRANCH *)
  instr_author ← author_field (instructions artifacts) "actor";
  diff_author ← author_field (diff artifacts) "actor";
  if bool_decide (instr_author ∉ branch_roles) then
    _err "Instructions author is not a member of roles.BRANCH (file: instructions.json, field: author.actor)."
  else if bool_decide (diff_author ∉ branch_roles) then
    _err "Diff author is not a member of roles.BRANCH (file: diff.json, field: author.actor)."
  else
    _ok "Artifacts validated successfully.".

Definition validate_run `{StrRepr} (fs : filesystem) (run_dir : path) : M bool :=
  there ← path_exists fs run_dir;
  is_dir ← (if there : bool then path_is_dir fs run_dir else mret false);
  if negb there || negb is_dir then
    _err ("Run directory does not exist or is not a directory: " +:+ path_str run_dir)
  else
  (* 1) Locate project root and load chimera.yaml *)
  project_root ← _find_project_root fs run_dir;
  match project_root with
  | None => _err "Could not locate project root containing 'chimera.yaml'."
  | Some project_root =>
  let chimera_path := project_root </> "chimera.yaml" in
  try_except (_load_yaml_json fs chimera_path)
    (λ e, _err ("Failed to load chimera.yaml: " +:+ exc_msg e))
    (λ chimera_cfg,
  (* Enforce version pin early *)
  version ← config_version chimera_cfg;
  if bool_decide (version ≠ "1.0") then
    _err ("Unsupported chimera.yaml version '" +:+ version +:+ "'. Expected '1.0'.")
  else
  '(trunk_roles, branch_roles) ← config_roles chimera_cfg;
  (* 2) Load artifacts *)
  try_except (_load_artifacts fs run_dir)
    (λ e, match exc_class e with
          | FileNotFoundError => _err (exc_msg e)
          | _ => _err ("Failed to load artifacts: " +:+ exc_msg e)
          end)
    (λ artifacts,
  (* 3) (Hook) Local JSON Schema validation (stubbed to always pass) *)
  gate ← _schema_gate artifacts;
  if negb gate then mret false else
  (* 4) Cross-file checks *)
  cross_file_checks trunk_roles branch_roles artifacts))
  end.

(** ** The checks as the specification lists them *)

(** The fields the cross-file checks read, after coercion to [str]. *)
Record fields : Type := {
  rid_intent : string;
  rid_instr : string;
  rid_diff : string;
  intent_role : string;
  intent_actor : string;
  instr_actor : string;
  diff_actor : string
}.

(** Every field of the bundle is read without a fault, with these values. *)
Record reads `{StrRepr} (b : ArtifactBundle) (f : fields) : Prop := {
  reads_rid_intent : run_id_of (intent b) = mret (rid_intent f);
  reads_rid_instr : run_id_of (instructions b) = mret (rid_instr f);
  reads_rid_diff : run_id_of (diff b) = mret (rid_diff f);
  reads_intent_role : author_field (intent b) "role" = mret (intent_role f);
  reads_intent_actor : author_field (intent b) "actor" = mret (intent_actor f);
  reads_instr_actor : author_field (instructions b) "actor" = mret (instr_actor f);
  reads_diff_actor : author_field (diff b) "actor" = mret (diff_actor f)
}.

(** Checks 2 to 7 of the consistency checker, in the order of the specification. *)
Inductive check : Type :=
  | RunIdPresence
  | RunIdEquality
  | IntentRole
  | IntentTrunk
  | InstructionsBranch
  | DiffBranch.

Definition check_order : list check :=
  [RunIdPresence; RunIdEquality; IntentRole; IntentTrunk; InstructionsBranch; DiffBranch].

(** A check is violated, read from the words of the specification. *)
Definition violated (trunk branch : gset string) (f : fields) (c : check) : bool :=
  match c with
  | RunIdPresence =>
      bool_decide (rid_intent f = "" ∨ rid_instr f = "" ∨ rid_diff f = "")
  | RunIdEquality =>
      bool_decide (¬ (rid_intent f = rid_instr f ∧ rid_instr f = rid_diff f))
  | IntentRole => bool_decide (intent_role f ≠ "TRUNK")
  | IntentTrunk => bool_decide (intent_actor f ∉ trunk)
  | InstructionsBranch => bool_decide (instr_actor f ∉ branch)
  | DiffBranch => bool_decide (diff_actor f ∉ branch)
  end.

(** The line reported for each check. *)
Definition diagnostic (f : fields) (c : check) : string :=
  match c with
  | RunIdPresence =>
      "Missing run_id in one or more artifacts (files: intent.json, instructions.json, diff.json)."
  | RunIdEquality =>
      "Run ID mismatch across artifacts: intent='" +:+ rid_intent f
      +:+ "', instructions='" +:+ rid_instr f +:+ "', diff='" +:+ rid_diff f +:+ "'."
  | IntentRole =>
      "Intent author role must be TRUNK (file: intent.json, field: author.role)."
  | IntentTrunk =>
      "Intent author is not a member of roles.TRUNK (file: intent.json, field: author.actor)."
  | InstructionsBranch =>
      "Instructions author is not a member of roles.BRANCH (file: instructions.json, field: author.actor)."
  | DiffBranch =>
      "Diff author is not a member of roles.BRANCH (file: diff.json, field: author.actor)."
  end.

(** The first violated check in the order of the specification, if any. *)
Definition first_violation (trunk branch : gset string) (f : fields) : option check :=
  List.find (violated trunk branch f) check_order.

(** A diagnostic singles out the documents without a run identifier: it
    names an artifact file exactly when that artifact's [run_id] is empty. *)
Definition names_the_empty_documents (line : string) (f : fields) : Prop :=
  (contains "intent.json" line = true ↔ rid_intent f = "")
  ∧ (contains "instructions.json" line = true ↔ rid_instr f = "")
  ∧ (contains "diff.json" line = true ↔ rid_diff f = "").

(** ** Stages of a run *)

(** The run directory exists and the configuration found above it at
    [root] decodes to [cfg]. *)
Record discovered (fs : filesystem) (run_dir root : path) (cfg : json) : Prop := {
  run_dir_exists : fs_exists fs run_dir = true;
  run_dir_is_dir : fs_is_dir fs run_dir = true;
  root_found : result (_find_project_root fs run_dir) = inr (Some root);
  config_decodes : fs_load fs (root </> "chimera.yaml") = inr cfg
}.

(** The three artifact files are present and decode to the bundle [b]. *)
Record artifacts_loaded (fs : filesystem) (run_dir : path) (b : ArtifactBundle) : Prop := {
  intent_exists : fs_exists fs (run_dir </> "intent.json") = true;
  instr_exists : fs_exists fs (run_dir </> "instructions.json") = true;
  diff_exists : fs_exists fs (run_dir </> "diff.json") = true;
  intent_decodes : fs_load fs (run_dir </> "intent.json") = inr (intent b);
  instr_decodes : fs_load fs (run_dir </> "instructions.json") = inr (instructions b);
  diff_decodes : fs_load fs (run_dir </> "diff.json") = inr (diff b)
}.

(** The run passes discovery, the version pin and the artifact loader, and
    reaches the cross-file checks with role sets [trunk], [branch] and
    bundle [b]. *)
Inductive reaches_checks `{StrRepr} (fs : filesystem) (run_dir : path)
    (trunk branch : gset string) (b : ArtifactBundle) : Prop :=
  | ReachesChecks (root : path) (cfg : json) :
      discovered fs run_dir root cfg →
      config_version cfg = mret "1.0" →
      config_roles cfg = mret (trunk, branch) →
      artifacts_loaded fs run_dir b →
      reaches_checks fs run_dir trunk branch b.

(** The paths of the three artifact files of a run. *)
Definition artifact_paths (run_dir : path) : list path :=
  [run_dir </> "intent.json"; run_dir </> "instructions.json"; run_dir </> "diff.json"].

(** ** Sample runs, after the fixtures of the test suite *)

(** [repr] of a [str] of printable ASCII without quotes or backslashes. *)
Definition ascii_repr : StrRepr := λ s, "'" +:+ s +:+ "'".

Definition author_obj (actor role timestamp : string) : json :=
  JObj [("actor", JStr actor); ("role", JStr role); ("timestamp", JStr timestamp)].

Definition _valid_chimera_config (trunk_actor branch_actor : string) : json :=
  JObj [("version", JStr "1.0");
        ("roles", JObj [("TRUNK", JArr [JStr trunk_actor]);
                        ("BRANCH", JArr [JStr branch_actor])])].

Definition _valid_intent (run_id trunk_actor : string) : json :=
  JObj [("schema_version", JStr "1.0");
        ("run_id", JStr run_id);
        ("intent", JStr "Refactor auth module to improve testability.");
        ("plan", JArr [JStr "Extract interfaces for provider injection";
                       JStr "Add unit tests for token verification"]);
        ("author", author_obj trunk_actor "TRUNK" "2025-10-03T12:00:00Z")].

Definition _valid_instructions (run_id branch_actor : string) : json :=
  JObj [("schema_version", JStr "1.0");
        ("run_id", JStr run_id);
        ("steps", JArr [JStr "Modify cli/chimera.py to expose validate entrypoint";
                        JStr "Create validators/validate_artifacts.py with validate_run"]);
        ("author", author_obj branch_actor "BRANCH" "2025-10-03T12:05:00Z")].

Definition _valid_diff (run_id branch_actor : string) : json :=
  JObj [("schema_version", JStr "1.0");
        ("run_id", JStr run_id);
        ("changes", JArr [JObj [("path", JStr "cli/chimera.py");
                                ("operation", JStr "modify");
                                ("summary", JStr "Wire up parse_args for 'validate' subcommand")]]);
        ("author", author_obj branch_actor "BRANCH" "2025-10-03T12:30:00Z")].

(** A file system given by its directories and its files, each file with
    the outcome of decoding it. *)
Definition make_fs (dirs : list path) (files : list (path * (exception + json))) : filesystem :=
  let lookup p := (list_find (λ pf, fst pf = p) files) in
  {| fs_exists p := bool_decide (p ∈ dirs) || bool_decide (p ∈ (fst <$> files));
     fs_is_dir p := bool_decide (p ∈ dirs);
     fs_load p :=
       match lookup p with
       | Some (_, (_, r)) => r
       | None =>
           if bool_decide (p ∈ dirs)
           then inl (Exc OSError ("[Errno 21] Is a directory: '" +:+ path_str p +:+ "'"))
           else inl (Exc FileNotFoundError
                       ("[Errno 2] No such file or directory: '" +:+ path_str p +:+ "'"))
       end |}.

Definition project_root : path := ["project"].
Definition sample_run_id : string := "20251003-refactor-auth-module".
Definition sample_run_dir : path := project_root </> "runs" </> sample_run_id.
Definition sample_dirs : list path := [[]; project_root; project_root </> "runs"; sample_run_dir].

(** [_make_run]: the layout of a run, with the configuration at the project
    root and the artifacts that are present in the run directory. *)
Definition _make_run (cfg : exception + json) (i n d : option (exception + json)) : filesystem :=
  make_fs sample_dirs
    ([(project_root </> "chimera.yaml", cfg)]
     ++ from_option (λ r, [(sample_run_dir </> "intent.json", r)]) [] i
     ++ from_option (λ r, [(sample_run_dir </> "instructions.json", r)]) [] n
     ++ from_option (λ r, [(sample_run_dir </> "diff.json", r)]) [] d).

Definition run_of (cfg : json) (b : ArtifactBundle) : filesystem :=
  _make_run (inr cfg) (Some (inr (intent b))) (Some (inr (instructions b)))
            (Some (inr (diff b))).

Definition sample_bundle (rid_i rid_n rid_d trunk_actor instr_by diff_by : string) : ArtifactBundle :=
  {| intent := _valid_intent rid_i trunk_actor;
     instructions := _valid_instructions rid_n instr_by;
     diff := _valid_diff rid_d diff_by |}.

Definition sample_fields (rid_i rid_n rid_d role trunk_actor instr_by diff_by : string) : fields :=
  {| rid_intent := rid_i; rid_instr := rid_n; rid_diff := rid_d;
     intent_role := role; intent_actor := trunk_actor;
     instr_actor := instr_by; diff_actor := diff_by |}.

Definition sample_config : json := _valid_chimera_config "username:Trunk" "username:Branch".
Definition sample_trunk : gset string := list_to_set ["username:Trunk"].
Definition sample_branch : gset string := list_to_set ["username:Branch"].

(** Scenario A: the valid run. *)
Definition bundle_valid : ArtifactBundle :=
  sample_bundle sample_run_id sample_run_id sample_run_id
                "username:Trunk" "username:Branch" "username:Branch".
Definition fields_valid : fields :=
  sample_fields sample_run_id sample_run_id sample_run_id "TRUNK"
                "username:Trunk" "username:Branch" "username:Branch".

(** Scenario B: the run identifier of diff changed. *)
Definition bundle_wrong_id : ArtifactBundle :=
  sample_bundle sample_run_id sample_run_id "20251003-wrong-id"
                "username:Trunk" "username:Branch" "username:Branch".

(** Scenario C: the intent written by an actor that is not listed. *)
Definition bundle_not_listed : ArtifactBundle :=
  sample_bundle sample_run_id sample_run_id sample_run_id
                "username:NotListed" "username:Branch" "username:Branch".

(** The intent with the role BRANCH. *)
Definition bundle_branch_role : ArtifactBundle :=
  {| intent := JObj [("run_id", JStr sample_run_id);
                     ("author", author_obj "username:Trunk" "BRANCH" "2025-10-03T12:00:00Z")];
     instructions := _valid_instructions sample_run_id "username:Branch";
     diff := _valid_diff sample_run_id "username:Branch" |}.

(** The instructions written by an intruder. *)
Definition bundle_intruder : ArtifactBundle :=
  sample_bundle sample_run_id sample_run_id sample_run_id
                "username:Trunk" "username:Intruder" "username:Branch".
Definition fields_intruder : fields :=
  sample_fields sample_run_id sample_run_id sample_run_id "TRUNK"
                "username:Trunk" "username:Intruder" "username:Branch".

(** Several violations at once: the run identifier of diff differs, the
    intent actor is not listed and diff is written by an intruder. *)
Definition bundle_many : ArtifactBundle :=
  sample_bundle sample_run_id sample_run_id "20251003-wrong-id"
                "username:NotListed" "username:Branch" "username:Intruder".
Definition fields_many : fields :=
  sample_fields sample_run_id sample_run_id "20251003-wrong-id" "TRUNK"
                "username:NotListed" "username:Branch" "username:Intruder".

(** Only diff has an empty run identifier. *)
Definition bundle_empty_id : ArtifactBundle :=
  sample_bundle sample_run_id sample_run_id ""
                "username:Trunk" "username:Branch" "username:Branch".
Definition fields_empty_id : fields :=
  sample_fields sample_run_id sample_run_id "" "TRUNK"
                "username:Trunk" "username:Branch" "username:Branch".

(** The three run identifiers are JSON null. *)
Definition null_id_members (author : json) : list (string * json) :=
  [("schema_version", JStr "1.0"); ("run_id", JNull); ("author", author)].
Definition bundle_null_id : ArtifactBundle :=
  {| intent := JObj (null_id_members (author_obj "username:Trunk" "TRUNK" "2025-10-03T12:00:00Z"));
     instructions :=
       JObj (null_id_members (author_obj "username:Branch" "BRANCH" "2025-10-03T12:05:00Z"));
     diff := JObj (null_id_members (author_obj "username:Branch" "BRANCH" "2025-10-03T12:30:00Z")) |}.

(** Scenario D: diff.json deleted from the valid run. *)
Definition run_without_diff : filesystem :=
  _make_run (inr sample_config) (Some (inr (intent bundle_valid)))
            (Some (inr (instructions bundle_valid))) None.

(** The configuration at version 2.0, in a run directory without artifacts. *)
Definition config_v2 : json :=
  JObj [("version", JStr "2.0");
        ("roles", JObj [("TRUNK", JArr [JStr "username:Trunk"]);
                        ("BRANCH", JArr [JStr "username:Branch"])])].
Definition run_v2_without_artifacts : filesystem :=
  _make_run (inr config_v2) None None None.

(** Well-formed JSON that is not an object where an object is expected: the
    configuration is the array [[]]; intent.json is the array [[]]; the
    author of the intent is a string. *)
Definition run_config_array : filesystem := run_of (JArr []) bundle_valid.
Definition run_intent_array : filesystem :=
  _make_run (inr sample_config) (Some (inr (JArr [])))
            (Some (inr (instructions bundle_valid))) (Some (inr (diff bundle_valid))).
Definition bundle_author_string : ArtifactBundle :=
  {| intent := JObj [("run_id", JStr sample_run_id); ("author", JStr "username:Trunk")];
     instructions := _valid_instructions sample_run_id "username:Branch";
     diff := _valid_diff sample_run_id "username:Branch" |}.

(** ** The command line: [cli/chimera.py] *)

(** [_cmd_validate]: [import_va] is the outcome of importing the validator
    module, the exception it raised if any; the exit code is the value. *)
Definition _cmd_validate `{StrRepr} (import_va : option exception)
    (fs : filesystem) (run_path : path) : M Z :=
  match import_va with
  | Some e => emit (EvPrint ("Failed to import validator: " +:+ exc_msg e));; mret 1%Z
  | None =>
      try_except (validate_run fs run_path)
        (λ e, match exc_class e with
              | FileNotFoundError => emit (EvPrint (exc_msg e));; mret 1%Z
              | _ => emit (EvPrint ("Unexpected error during validation: " +:+ exc_msg e));;
                     mret 1%Z
              end)
        (λ ok, mret (if ok : bool then 0%Z else 1%Z))
  end.

(** ** Observations for the properties of a whole run *)

(** The files read, in order. *)
Fixpoint file_reads (log : list event) : list path :=
  match log with
  | [] => []
  | EvRead p :: log' => p :: file_reads log'
  | _ :: log' => file_reads log'
  end.

(** The line [validate_run] prints when loading the artifacts raises [e]. *)
Definition artifact_error_line (e : exception) : string :=
  match exc_class e with
  | FileNotFoundError => exc_msg e
  | _ => "Failed to load artifacts: " +:+ exc_msg e
  end.

Definition is_object (v : json) : bool :=
  match v with
  | JObj _ => true
  | _ => false
  end.

(** A configuration on which no read faults: an object whose [roles], when
    present and truthy, is an object. *)
Definition config_shaped (cfg : json) : bool :=
  match cfg with
  | JObj members =>
      match lookup_member "roles" members with
      | None => true
      | Some r => negb (truthy r) || is_object r
      end
  | _ => false
  end.

(** An artifact on which no read faults: an object whose [author], when
    present, is an object. *)
Definition artifact_shaped (a : json) : bool :=
  match a with
  | JObj members =>
      match lookup_member "author" members with
      | None => true
      | Some author => is_object author
      end
  | _ => false
  end.

(** The ways out of [validate_run]: what it returns or raises, the lines it
    prints and the files it reads, with the observations that lead there. *)
Inductive exit_path `{StrRepr} (fs : filesystem) (run_dir : path) :
    exception + bool → list string → list path → Prop :=
  | ExitNoRunDir :
      fs_exists fs run_dir = false ∨ fs_is_dir fs run_dir = false →
      exit_path fs run_dir (inr false)
        ["Run directory does not exist or is not a directory: " +:+ path_str run_dir] []
  | ExitNoRoot :
      fs_exists fs run_dir = true → fs_is_dir fs run_dir = true →
      result (_find_project_root fs run_dir) = inr None →
      exit_path fs run_dir (inr false)
        ["Could not locate project root containing 'chimera.yaml'."] []
  | ExitConfigLoad (root : path) (e : exception) :
      fs_exists fs run_dir = true → fs_is_dir fs run_dir = true →
      result (_find_project_root fs run_dir) = inr (Some root) →
      fs_load fs (root </> "chimera.yaml") = inl e →
      exit_path fs run_dir (inr false)
        ["Failed to load chimera.yaml: " +:+ exc_msg e] [root </> "chimera.yaml"]
  | ExitConfigFault (root : path) (cfg : json) (msg : string) :
      discovered fs run_dir root cfg →
      config_shaped cfg = false →
      exit_path fs run_dir (inl (Exc AttributeError msg)) [] [root </> "chimera.yaml"]
  | ExitVersion (root : path) (cfg : json) (version : string) :
      discovered fs run_dir root cfg →
      config_version cfg = mret version →
      version ≠ "1.0" →
      exit_path fs run_dir (inr false)
        ["Unsupported chimera.yaml version '" +:+ version +:+ "'. Expected '1.0'."]
        [root </> "chimera.yaml"]
  | ExitMissing (root : path) (cfg : json) (trunk branch : gset string) (names : string) :
      discovered fs run_dir root cfg →
      config_version cfg = mret "1.0" →
      config_roles cfg = mret (trunk, branch) →
      (∃ p, p ∈ artifact_paths run_dir ∧ fs_exists fs p = false) →
      exit_path fs run_dir (inr false)
        ["Missing artifact file(s): " +:+ names] [root </> "chimera.yaml"]
  | ExitArtifactLoad (root : path) (cfg : json) (trunk branch : gset string)
        (e : exception) (before : list path) (p : path) (after : list path) :
      discovered fs run_dir root cfg →
      config_version cfg = mret "1.0" →
      config_roles cfg = mret (trunk, branch) →
      (∀ q, q ∈ artifact_paths run_dir → fs_exists fs q = true) →
      artifact_paths run_dir = before ++ p :: after →
      (∀ q, q ∈ before → ∃ v, fs_load fs q = inr v) →
      fs_load fs p = inl e →
      exit_path fs run_dir (inr false) [artifact_error_line e]
        (root </> "chimera.yaml" :: before ++ [p])
  | ExitChecks (root : path) (cfg : json) (trunk branch : gset string) (b : ArtifactBundle) :
      discovered fs run_dir root cfg →
      config_version cfg = mret "1.0" →
      config_roles cfg = mret (trunk, branch) →
      artifacts_loaded fs run_dir b →
      exit_path fs run_dir (result (cross_file_checks trunk branch b))
        (stdout (cross_file_checks trunk branch b))
        (root </> "chimera.yaml" :: artifact_paths run_dir).

(** ** More sample runs *)

(** The valid run, as a file system. *)
Definition run_valid : filesystem := run_of sample_config bundle_valid.

(** A project without any chimera.yaml. *)
Definition run_without_config : filesystem := make_fs sample_dirs [].

(** The chimera.yaml is not JSON. *)
Definition decode_error : exception :=
  Exc ValueError "Expecting value: line 1 column 1 (char 0)".
Definition run_config_malformed : filesystem :=
  _make_run (inl decode_error) (Some (inr (intent bundle_valid)))
            (Some (inr (instructions bundle_valid))) (Some (inr (diff bundle_valid))).

(** instructions.json is not JSON. *)
Definition run_instructions_malformed : filesystem :=
  _make_run (inr sample_config) (Some (inr (intent bundle_valid)))
            (Some (inl decode_error)) (Some (inr (diff bundle_valid))).

(** The configuration without a roles entry. *)
Definition config_no_roles : json := JObj [("version", JStr "1.0")].

(** diff without a run_id key. *)
Definition diff_no_run_id : list (string * json) :=
  [("schema_version", JStr "1.0");
   ("author", author_obj "username:Branch" "BRANCH" "2025-10-03T12:30:00Z")].
Definition bundle_no_run_id : ArtifactBundle :=
  {| intent := _valid_intent sample_run_id "username:Trunk";
     instructions := _valid_instructions sample_run_id "username:Branch";
     diff := JObj diff_no_run_id |}.

(** The intent without an author key. *)
Definition intent_no_author : list (string * json) :=
  [("schema_version", JStr "1.0"); ("run_id", JStr sample_run_id)].
Definition bundle_no_author : ArtifactBundle :=
  {| intent := JObj intent_no_author;
     instructions := _valid_instructions sample_run_id "username:Branch";
     diff := _valid_diff sample_run_id "username:Branch" |}.

(** * Properties *)

(** ** Strings and logs *)

Lemma startswith_app (s t : string) : startswith s (s +:+ t) = true.
Proof.
  induction s as [|a s IH]; simpl; [done|].
  by rewrite decide_True.
Qed.

Lemma contains_startswith (needle hay : string) :
  startswith needle hay = true → contains needle hay = true.
Proof. destruct hay; simpl; by intros ->. Qed.

Lemma contains_app (pre s post : string) : contains s (pre +:+ s +:+ post) = true.
Proof.
  induction pre as [|a pre IH].
  - apply contains_startswith, (startswith_app s post).
  - change (contains s (String a (pre +:+ s +:+ post)) = true).
    simpl. rewrite IH. apply orb_true_r.
Qed.

Lemma append_assoc (a b c : string) : (a +:+ b) +:+ c = a +:+ b +:+ c.
Proof.
  induction a as [|x a IH]; [done|].
  change (String x ((a +:+ b) +:+ c) = String x (a +:+ b +:+ c)). by rewrite IH.
Qed.

Lemma contains_intro (pre s post hay : string) :
  hay = pre +:+ s +:+ post → contains s hay = true.
Proof. intros ->. apply contains_app. Qed.

Lemma stdout_of_app (l1 l2 : list event) :
  stdout_of (l1 ++ l2) = stdout_of l1 ++ stdout_of l2.
Proof.
  induction l1 as [|[] l1 IH]; simpl; by rewrite ?IH.
Qed.

Lemma M_bind_ret {A B} (x : A) (f : A → M B) : mret x ≫= f = f x.
Proof. unfold mret, mbind, M_ret, M_bind. by destruct (f x). Qed.

(** ** Discovery *)

(** The upward walk only asks whether a [chimera.yaml] exists. *)
Lemma find_project_root_trace (fs : filesystem) (cur : path) :
  Forall (λ ev, ∃ dir, ev = EvExists (dir </> "chimera.yaml"))
         (trace (_find_project_root fs cur)).
Proof.
  induction cur as [|c cur IH]; simpl.
  - destruct (fs_exists fs _); simpl; repeat constructor; by eexists.
  - destruct (fs_exists fs _); simpl.
    + repeat constructor; by eexists.
    + constructor; [by eexists|]. apply IH.
Qed.

Lemma find_project_root_silent (fs : filesystem) (cur : path) :
  stdout (_find_project_root fs cur) = [].
Proof.
  unfold stdout. induction (find_project_root_trace fs cur) as [|ev l [dir ->] _ IH]; done.
Qed.

Section Validator.
Context `{StrRepr}.

Local Arguments cross_file_checks : simpl never.
Local Arguments config_version : simpl never.
Local Arguments config_roles : simpl never.

(** ** The cross-file checks against the ordered list of the specification *)

Lemma first_violation_earliest (trunk branch : gset string) (f : fields)
    (before after : list check) (c : check) :
  check_order = before ++ c :: after →
  Forall (λ c', violated trunk branch f c' = false) before →
  violated trunk branch f c = true →
  first_violation trunk branch f = Some c.
Proof.
  unfold first_violation. intros -> Hb Hc.
  induction Hb as [|c' before Hc' _ IH]; simpl.
  - by rewrite Hc.
  - by rewrite Hc'.
Qed.

Ltac decide_checks :=
  repeat case_bool_decide; simpl; try reflexivity; exfalso; try tauto;
  repeat match goal with H : ¬ (_ ≠ _) |- _ => apply dec_stable in H end; tauto.

(** The code of step 4 is the first violated check of the ordered list. *)
Lemma cross_file_checks_first_violation (trunk branch : gset string)
    (b : ArtifactBundle) (f : fields) :
  reads b f →
  cross_file_checks trunk branch b =
    match first_violation trunk branch f with
    | Some c => _err (diagnostic f c)
    | None => _ok "Artifacts validated successfully."
    end.
Proof.
  intros [H1 H2 H3 H4 H5 H6 H7].
  unfold cross_file_checks, _check_run_id_consistency.
  rewrite H1, H2, H3, H4, H5, H6, H7, !M_bind_ret.
  unfold first_violation; simpl find.
  decide_checks.
Qed.

Lemma check_run_id_consistency_reads (b : ArtifactBundle) (r1 r2 r3 : string) :
  run_id_of (intent b) = mret r1 →
  run_id_of (instructions b) = mret r2 →
  run_id_of (diff b) = mret r3 →
  _check_run_id_consistency b =
    if bool_decide (r1 = "" ∨ r2 = "" ∨ r3 = "") then
      _err "Missing run_id in one or more artifacts (files: intent.json, instructions.json, diff.json)."
    else if bool_decide (¬ (r1 = r2 ∧ r2 = r3)) then
      _err ("Run ID mismatch across artifacts: intent='" +:+ r1
            +:+ "', instructions='" +:+ r2 +:+ "', diff='" +:+ r3 +:+ "'.")
    else mret true.
Proof.
  intros H1 H2 H3. unfold _check_run_id_consistency.
  rewrite H1, H2, H3, !M_bind_ret.
  decide_checks.
Qed.

Lemma cross_file_checks_inconsistent (trunk branch : gset string)
    (b : ArtifactBundle) (line : string) :
  _check_run_id_consistency b = _err line →
  cross_file_checks trunk branch b = _err line.
Proof. unfold cross_file_checks. by intros ->. Qed.

Lemma cross_file_checks_intent (trunk branch : gset string)
    (b : ArtifactBundle) (role actor : string) :
  _check_run_id_consistency b = mret true →
  author_field (intent b) "role" = mret role →
  author_field (intent b) "actor" = mret actor →
  (role ≠ "TRUNK" →
   cross_file_checks trunk branch b =
     _err "Intent author role must be TRUNK (file: intent.json, field: author.role).")
  ∧ (role = "TRUNK" → actor ∉ trunk →
     cross_file_checks trunk branch b =
       _err "Intent author is not a member of roles.TRUNK (file: intent.json, field: author.actor).").
Proof.
  intros Hc Hr Ha. unfold cross_file_checks.
  rewrite Hc, M_bind_ret. simpl. rewrite Ha, Hr, !M_bind_ret.
  split.
  - intros Hne. by rewrite bool_decide_true.
  - intros -> Hnot. rewrite bool_decide_false by (by intros []).
    by rewrite bool_decide_true.
Qed.

(** ** From the run directory to the cross-file checks *)

Ltac run_discovery Hdisc log :=
  let Hex := fresh "Hex" in
  let Hdir := fresh "Hdir" in
  let Hroot := fresh "Hroot" in
  let Hcfg := fresh "Hcfg" in
  let r := fresh "r" in
  destruct Hdisc as [Hex Hdir Hroot Hcfg];
  unfold validate_run, path_exists, path_is_dir;
  destruct (_find_project_root _ _) as [r log];
  unfold result, stdout, trace in *; simpl in *; subst r;
  rewrite Hex, Hdir; simpl;
  unfold try_except, _load_yaml_json; rewrite Hcfg; simpl.

(** A run that reaches the cross-file checks ends as they end and prints
    what they print. *)
Lemma validate_run_reaches (fs : filesystem) (run_dir : path)
    (trunk branch : gset string) (b : ArtifactBundle) :
  reaches_checks fs run_dir trunk branch b →
  result (validate_run fs run_dir) = result (cross_file_checks trunk branch b)
  ∧ stdout (validate_run fs run_dir) = stdout (cross_file_checks trunk branch b).
Proof.
  intros [root cfg Hdisc Hver Hroles [Ei En Ed Li Ln Ld]].
  pose proof (find_project_root_silent fs run_dir) as Hsilent.
  run_discovery Hdisc log.
  rewrite Hver. simpl. rewrite Hroles. simpl.
  unfold _load_artifacts, _load_json, path_exists. simpl.
  rewrite Ei, En, Ed. simpl. rewrite Li, Ln, Ld. simpl.
  destruct b; simpl. by rewrite stdout_of_app, Hsilent.
Qed.

Lemma validate_run_reaches_err (fs : filesystem) (run_dir : path)
    (trunk branch : gset string) (b : ArtifactBundle) (line : string) :
  reaches_checks fs run_dir trunk branch b →
  cross_file_checks trunk branch b = _err line →
  result (validate_run fs run_dir) = inr false
  ∧ stdout (validate_run fs run_dir) = [line].
Proof.
  intros Hreach Hline. destruct (validate_run_reaches _ _ _ _ _ Hreach) as [-> ->].
  by rewrite Hline.
Qed.

Lemma validate_run_first_violation (fs : filesystem) (run_dir : path)
    (trunk branch : gset string) (b : ArtifactBundle) (f : fields) (c : check) :
  reaches_checks fs run_dir trunk branch b →
  reads b f →
  first_violation trunk branch f = Some c →
  result (validate_run fs run_dir) = inr false
  ∧ stdout (validate_run fs run_dir) = [diagnostic f c].
Proof.
  intros Hreach Hreads Hfirst.
  apply (validate_run_reaches_err _ _ _ _ _ _ Hreach).
  by rewrite (cross_file_checks_first_violation _ _ _ _ Hreads), Hfirst.
Qed.

(** ** The consistency checker *)


(** C2: a run whose directory exists, whose configuration is found with
    version "1.0", whose three artifacts are present and decode, with
    non-empty pairwise equal run identifiers, intent role "TRUNK", intent
    actor in the TRUNK set and instructions and diff actors in the BRANCH
    set, is accepted: [validate_run] returns true and prints the success
    line. *)
Theorem validate_run_accepts_consistent_run (fs : filesystem) (run_dir : path)
    (trunk branch : gset string) (b : ArtifactBundle) (f : fields) :
  reaches_checks fs run_dir trunk branch b →
  reads b f →
  rid_intent f ≠ "" → rid_instr f ≠ "" → rid_diff f ≠ "" →
  rid_intent f = rid_instr f → rid_instr f = rid_diff f → rid_intent f = rid_diff f →
  intent_role f = "TRUNK" →
  intent_actor f ∈ trunk →
  instr_actor f ∈ branch →
  diff_actor f ∈ branch →
  result (validate_run fs run_dir) = inr true
  ∧ stdout (validate_run fs run_dir) = ["Artifacts validated successfully."].
Proof.
  intros Hreach Hreads N1 N2 N3 E12 E23 _ Hrole Ht Hn Hd.
  destruct (validate_run_reaches _ _ _ _ _ Hreach) as [-> ->].
  rewrite (cross_file_checks_first_violation _ _ _ _ Hreads).
  unfold first_violation; simpl find.
  rewrite bool_decide_false by (intros [|[|]]; done).
  rewrite bool_decide_false by (intros Hne; apply Hne; done).
  rewrite bool_decide_false by (intros Hne; apply Hne; done).
  rewrite !bool_decide_false by (intros Hne; apply Hne; done).
  done.
Qed.

(** C3: once the run-id checks have passed, an intent whose author.role is
    not exactly "TRUNK" is rejected with a line naming the file and the
    field author.role; with the role "TRUNK", an intent whose author.actor
    is not in the TRUNK set is rejected with a line containing "TRUNK" and
    "member". *)
Theorem validate_run_intent_author_gate (fs : filesystem) (run_dir : path)
    (trunk branch : gset string) (b : ArtifactBundle) (role actor : string) :
  reaches_checks fs run_dir trunk branch b →
  _check_run_id_consistency b = mret true →
  author_field (intent b) "role" = mret role →
  author_field (intent b) "actor" = mret actor →
  (role ≠ "TRUNK" →
   result (validate_run fs run_dir) = inr false
   ∧ ∃ line, stdout (validate_run fs run_dir) = [line]
       ∧ line = "Intent author role must be TRUNK (file: intent.json, field: author.role)."
       ∧ contains "intent.json" line = true
       ∧ contains "author.role" line = true)
  ∧ (role = "TRUNK" → actor ∉ trunk →
     result (validate_run fs run_dir) = inr false
     ∧ ∃ line, stdout (validate_run fs run_dir) = [line]
         ∧ line = "Intent author is not a member of roles.TRUNK (file: intent.json, field: author.actor)."
         ∧ contains "TRUNK" line = true
         ∧ contains "member" line = true).
Proof.
  intros Hreach Hc Hr Ha.
  destruct (cross_file_checks_intent trunk branch b role actor Hc Hr Ha) as [Hrole Hactor].
  split.
  - intros Hne.
    destruct (validate_run_reaches_err _ _ _ _ _ _ Hreach (Hrole Hne)) as [-> ->].
    split; [done|]. eexists. by vm_compute.
  - intros Heq Hnot.
    destruct (validate_run_reaches_err _ _ _ _ _ _ Hreach (Hactor Heq Hnot)) as [-> ->].
    split; [done|]. eexists. by vm_compute.
Qed.

(** C4: when all earlier checks pass and the author.actor of instructions
    or of diff is not in the BRANCH set, [validate_run] returns false and
    the line it prints contains "BRANCH" and "member". *)
Theorem validate_run_branch_membership (fs : filesystem) (run_dir : path)
    (trunk branch : gset string) (b : ArtifactBundle) (f : fields) :
  reaches_checks fs run_dir trunk branch b →
  reads b f →
  Forall (λ c, violated trunk branch f c = false)
         [RunIdPresence; RunIdEquality; IntentRole; IntentTrunk] →
  instr_actor f ∉ branch ∨ diff_actor f ∉ branch →
  result (validate_run fs run_dir) = inr false
  ∧ ∃ line, stdout (validate_run fs run_dir) = [line]
      ∧ contains "BRANCH" line = true
      ∧ contains "member" line = true.
Proof.
  intros Hreach Hreads Hearlier Hbranch.
  rewrite !Forall_cons in Hearlier. destruct Hearlier as (H1 & H2 & H3 & H4 & _).
  simpl in H1, H2, H3, H4.
  assert (∃ c, first_violation trunk branch f = Some c
               ∧ (c = InstructionsBranch ∨ c = DiffBranch)) as (c & Hfirst & Hc).
  { unfold first_violation; simpl find. rewrite H1, H2, H3, H4.
    clear H1 H2 H3 H4. repeat case_bool_decide; [eauto..|tauto]. }
  destruct (validate_run_first_violation _ _ _ _ _ _ _ Hreach Hreads Hfirst) as [-> ->].
  split; [done|]. eexists. split; [done|].
  by destruct Hc as [-> | ->]; vm_compute.
Qed.


(** ** The artifact loader and the version pin *)

Lemma run_dir_not_artifact (run_dir : path) : run_dir ∉ artifact_paths run_dir.
Proof.
  unfold artifact_paths, child. rewrite !not_elem_of_cons.
  repeat split; [..|apply not_elem_of_nil];
    intros Heq; apply (f_equal length) in Heq; simpl in Heq; lia.
Qed.

Lemma chimera_not_artifact (dir run_dir : path) :
  dir </> "chimera.yaml" ∉ artifact_paths run_dir.
Proof.
  unfold artifact_paths, child. rewrite !not_elem_of_cons.
  repeat split; [..|apply not_elem_of_nil]; intros Heq; discriminate.
Qed.

(** C6: when the configuration is loaded and one or more of intent.json,
    instructions.json and diff.json is absent from the run directory,
    [validate_run] returns false and the line it prints names every absent
    file and no present one. *)
Theorem validate_run_names_missing_artifacts (fs : filesystem) (run_dir root : path)
    (cfg : json) (trunk branch : gset string) :
  discovered fs run_dir root cfg →
  config_version cfg = mret "1.0" →
  config_roles cfg = mret (trunk, branch) →
  (∃ p, p ∈ artifact_paths run_dir ∧ fs_exists fs p = false) →
  result (validate_run fs run_dir) = inr false
  ∧ ∃ line, stdout (validate_run fs run_dir) = [line]
      ∧ startswith "Missing artifact file(s): " line = true
      ∧ ∀ p, p ∈ artifact_paths run_dir →
             contains (path_name p) line = negb (fs_exists fs p).
Proof.
  intros Hdisc Hver Hroles (p & Hp & Habsent).
  pose proof (find_project_root_silent fs run_dir) as Hsilent.
  run_discovery Hdisc log.
  rewrite Hver. simpl. rewrite Hroles. simpl.
  unfold _load_artifacts, _load_json, path_exists. simpl.
  unfold artifact_paths in *.
  assert (∀ q : path, q ∈ [run_dir </> "intent.json"; run_dir </> "instructions.json";
                          run_dir </> "diff.json"] →
            q = run_dir </> "intent.json" ∨ q = run_dir </> "instructions.json"
            ∨ q = run_dir </> "diff.json") as Hcases.
  { intros q. rewrite !elem_of_cons, elem_of_nil. tauto. }
  destruct (fs_exists fs (run_dir </> "intent.json")) eqn:Ei,
           (fs_exists fs (run_dir </> "instructions.json")) eqn:En,
           (fs_exists fs (run_dir </> "diff.json")) eqn:Ed.
  1: { exfalso. destruct (Hcases p Hp) as [-> | [-> | ->]]; congruence. }
  all: simpl; rewrite stdout_of_app, Hsilent; simpl.
  all: split; [done|]; eexists; split; [done|]; split; [done|].
  all: intros q Hq; destruct (Hcases q Hq) as [-> | [-> | ->]].
  all: rewrite ?Ei, ?En, ?Ed; by vm_compute.
Qed.


(** C8, amended: when the run identifier of at least one artifact, coerced
    to a string and empty if absent, is empty, [validate_run] returns false
    and prints one fixed line, which lists the three artifact files
    whichever of them lacks the identifier. *)
Theorem validate_run_missing_run_id (fs : filesystem) (run_dir : path)
    (trunk branch : gset string) (b : ArtifactBundle) (r1 r2 r3 : string) :
  reaches_checks fs run_dir trunk branch b →
  run_id_of (intent b) = mret r1 →
  run_id_of (instructions b) = mret r2 →
  run_id_of (diff b) = mret r3 →
  r1 = "" ∨ r2 = "" ∨ r3 = "" →
  result (validate_run fs run_dir) = inr false
  ∧ stdout (validate_run fs run_dir) =
      ["Missing run_id in one or more artifacts (files: intent.json, instructions.json, diff.json)."].
Proof.
  intros Hreach H1 H2 H3 Hempty.
  pose proof (check_run_id_consistency_reads b r1 r2 r3 H1 H2 H3) as Hcheck.
  rewrite bool_decide_true in Hcheck by done.
  apply (cross_file_checks_inconsistent trunk branch) in Hcheck.
  exact (validate_run_reaches_err _ _ _ _ _ _ Hreach Hcheck).
Qed.

(** C10: a [run_id] that is JSON null is read as the non-empty string
    "None", so when the three artifacts all have a null [run_id] the
    presence check and the equality check both pass:
    [_check_run_id_consistency] returns true and prints nothing. *)
Theorem null_run_id_passes_consistency (b : ArtifactBundle)
    (mi mn md : list (string * json)) :
  intent b = JObj mi →
  instructions b = JObj mn →
  diff b = JObj md →
  lookup_member "run_id" mi = Some JNull →
  lookup_member "run_id" mn = Some JNull →
  lookup_member "run_id" md = Some JNull →
  run_id_of (intent b) = mret "None"
  ∧ run_id_of (instructions b) = mret "None"
  ∧ run_id_of (diff b) = mret "None"
  ∧ _check_run_id_consistency b = mret true.
Proof.
  intros Ei En Ed Li Ln Ld.
  assert (run_id_of (intent b) = mret "None") as H1.
  { unfold run_id_of. rewrite Ei. simpl. by rewrite Li. }
  assert (run_id_of (instructions b) = mret "None") as H2.
  { unfold run_id_of. rewrite En. simpl. by rewrite Ln. }
  assert (run_id_of (diff b) = mret "None") as H3.
  { unfold run_id_of. rewrite Ed. simpl. by rewrite Ld. }
  repeat split; try done.
  by rewrite (check_run_id_consistency_reads b _ _ _ H1 H2 H3).
Qed.

End Validator.

(** ** The checks on the sample runs *)

Lemma sample_run_reaches (b : ArtifactBundle) :
  @reaches_checks ascii_repr (run_of sample_config b) sample_run_dir
                  sample_trunk sample_branch b.
Proof.
  apply (@ReachesChecks ascii_repr _ _ _ _ _ project_root sample_config).
  - by split.
  - reflexivity.
  - reflexivity.
  - by split.
Defined.


Example bundle_many_violations :
  filter (λ c, violated sample_trunk sample_branch fields_many c = true) check_order
  = [RunIdEquality; IntentTrunk; DiffBranch].
Proof. by vm_compute. Qed.

Lemma validate_run_accepts_consistent_run_witness :
  result (@validate_run ascii_repr (run_of sample_config bundle_valid) sample_run_dir) = inr true
  ∧ stdout (@validate_run ascii_repr (run_of sample_config bundle_valid) sample_run_dir) =
      ["Artifacts validated successfully."].
Proof.
  apply (@validate_run_accepts_consistent_run ascii_repr
           (run_of sample_config bundle_valid) sample_run_dir sample_trunk sample_branch
           bundle_valid fields_valid).
  - apply sample_run_reaches.
  - by split.
  - discriminate.
  - discriminate.
  - discriminate.
  - reflexivity.
  - reflexivity.
  - reflexivity.
  - reflexivity.
  - apply (bool_decide_unpack _). by vm_compute.
  - apply (bool_decide_unpack _). by vm_compute.
  - apply (bool_decide_unpack _). by vm_compute.
Defined.

Lemma validate_run_intent_author_gate_witness :
  (result (@validate_run ascii_repr (run_of sample_config bundle_branch_role) sample_run_dir)
     = inr false
   ∧ ∃ line,
       stdout (@validate_run ascii_repr (run_of sample_config bundle_branch_role) sample_run_dir)
         = [line]
       ∧ line = "Intent author role must be TRUNK (file: intent.json, field: author.role)."
       ∧ contains "intent.json" line = true
       ∧ contains "author.role" line = true)
  ∧ (result (@validate_run ascii_repr (run_of sample_config bundle_not_listed) sample_run_dir)
       = inr false
     ∧ ∃ line,
         stdout (@validate_run ascii_repr (run_of sample_config bundle_not_listed) sample_run_dir)
           = [line]
         ∧ line = "Intent author is not a member of roles.TRUNK (file: intent.json, field: author.actor)."
         ∧ contains "TRUNK" line = true
         ∧ contains "member" line = true).
Proof.
  split.
  - apply (proj1 (@validate_run_intent_author_gate ascii_repr
                    (run_of sample_config bundle_branch_role) sample_run_dir
                    sample_trunk sample_branch bundle_branch_role "BRANCH" "username:Trunk"
                    (sample_run_reaches bundle_branch_role) eq_refl eq_refl eq_refl)).
    discriminate.
  - apply (proj2 (@validate_run_intent_author_gate ascii_repr
                    (run_of sample_config bundle_not_listed) sample_run_dir
                    sample_trunk sample_branch bundle_not_listed "TRUNK" "username:NotListed"
                    (sample_run_reaches bundle_not_listed) eq_refl eq_refl eq_refl)).
    + reflexivity.
    + apply (bool_decide_unpack _). by vm_compute.
Defined.

Lemma validate_run_branch_membership_witness :
  result (@validate_run ascii_repr (run_of sample_config bundle_intruder) sample_run_dir)
    = inr false
  ∧ ∃ line,
      stdout (@validate_run ascii_repr (run_of sample_config bundle_intruder) sample_run_dir)
        = [line]
      ∧ contains "BRANCH" line = true
      ∧ contains "member" line = true.
Proof.
  apply (@validate_run_branch_membership ascii_repr
           (run_of sample_config bundle_intruder) sample_run_dir sample_trunk sample_branch
           bundle_intruder fields_intruder).
  - apply sample_run_reaches.
  - by split.
  - repeat constructor.
  - left. apply (bool_decide_unpack _). by vm_compute.
Defined.


Lemma validate_run_names_missing_artifacts_witness :
  result (@validate_run ascii_repr run_without_diff sample_run_dir) = inr false
  ∧ ∃ line, stdout (@validate_run ascii_repr run_without_diff sample_run_dir) = [line]
      ∧ startswith "Missing artifact file(s): " line = true
      ∧ ∀ p, p ∈ artifact_paths sample_run_dir →
             contains (path_name p) line = negb (fs_exists run_without_diff p).
Proof.
  apply (@validate_run_names_missing_artifacts ascii_repr run_without_diff sample_run_dir
           project_root sample_config sample_trunk sample_branch).
  - by split.
  - reflexivity.
  - reflexivity.
  - exists (sample_run_dir </> "diff.json"). split; [|reflexivity].
    apply (bool_decide_unpack _). by vm_compute.
Defined.

Example run_without_diff_line :
  @validate_run ascii_repr run_without_diff sample_run_dir
  = (inr false,
     [EvExists sample_run_dir; EvIsDir sample_run_dir;
      EvExists (sample_run_dir </> "chimera.yaml");
      EvExists (project_root </> "runs" </> "chimera.yaml");
      EvExists (project_root </> "chimera.yaml");
      EvRead (project_root </> "chimera.yaml");
      EvExists (sample_run_dir </> "intent.json");
      EvExists (sample_run_dir </> "instructions.json");
      EvExists (sample_run_dir </> "diff.json");
      EvPrint "Missing artifact file(s): diff.json"]).
Proof. by vm_compute. Qed.


(** A configuration without a version is read as the empty version and
    rejected in the same way. *)
Example absent_version_rejected :
  stdout (@validate_run ascii_repr (run_of (JObj []) bundle_valid) sample_run_dir)
  = ["Unsupported chimera.yaml version ''. Expected '1.0'."].
Proof. by vm_compute. Qed.

Lemma validate_run_missing_run_id_witness :
  result (@validate_run ascii_repr (run_of sample_config bundle_empty_id) sample_run_dir)
    = inr false
  ∧ stdout (@validate_run ascii_repr (run_of sample_config bundle_empty_id) sample_run_dir) =
      ["Missing run_id in one or more artifacts (files: intent.json, instructions.json, diff.json)."].
Proof.
  apply (@validate_run_missing_run_id ascii_repr
           (run_of sample_config bundle_empty_id) sample_run_dir sample_trunk sample_branch
           bundle_empty_id sample_run_id sample_run_id "").
  - apply sample_run_reaches.
  - reflexivity.
  - reflexivity.
  - reflexivity.
  - right. right. reflexivity.
Defined.

(** C8 as stated fails: in a run where only diff has an empty [run_id], the
    line printed also names intent.json and instructions.json, whose
    identifiers are present, so it does not single out the document that
    lacks one. *)
Lemma missing_run_id_line_names_every_file :
  @reads ascii_repr bundle_empty_id fields_empty_id
  ∧ ¬ (result (@validate_run ascii_repr (run_of sample_config bundle_empty_id) sample_run_dir)
         = inr false
       ∧ ∃ line,
           stdout (@validate_run ascii_repr (run_of sample_config bundle_empty_id) sample_run_dir)
             = [line]
           ∧ names_the_empty_documents line fields_empty_id).
Proof.
  split; [by split|].
  intros (_ & line & Hline & Hintent & _).
  vm_compute in Hline. injection Hline as <-.
  destruct Hintent as [Hnamed _].
  discriminate (Hnamed eq_refl).
Qed.

Lemma null_run_id_passes_consistency_witness :
  @run_id_of ascii_repr (intent bundle_null_id) = mret "None"
  ∧ @run_id_of ascii_repr (instructions bundle_null_id) = mret "None"
  ∧ @run_id_of ascii_repr (diff bundle_null_id) = mret "None"
  ∧ @_check_run_id_consistency ascii_repr bundle_null_id = mret true.
Proof.
  apply (@null_run_id_passes_consistency ascii_repr bundle_null_id
           (null_id_members (author_obj "username:Trunk" "TRUNK" "2025-10-03T12:00:00Z"))
           (null_id_members (author_obj "username:Branch" "BRANCH" "2025-10-03T12:05:00Z"))
           (null_id_members (author_obj "username:Branch" "BRANCH" "2025-10-03T12:30:00Z")));
    reflexivity.
Defined.

(** With null run identifiers and everything else valid, the whole run is
    accepted. *)
Example null_run_id_run_accepted :
  result (@validate_run ascii_repr (run_of sample_config bundle_null_id) sample_run_dir)
  = inr true.
Proof. by vm_compute. Qed.

(** ** Inputs that are well-formed JSON but not an object *)

(** C9 at its failing inputs: where the configuration or intent.json is a
    top-level array, or the author of the intent is a string, [validate_run]
    returns no boolean and prints nothing: the AttributeError raised by
    [.get] leaves the function. *)
Theorem validate_run_non_object_raises :
  @validate_run ascii_repr run_config_array sample_run_dir
  = (inl (Exc AttributeError "'list' object has no attribute 'get'"),
     [EvExists sample_run_dir; EvIsDir sample_run_dir;
      EvExists (sample_run_dir </> "chimera.yaml");
      EvExists (project_root </> "runs" </> "chimera.yaml");
      EvExists (project_root </> "chimera.yaml");
      EvRead (project_root </> "chimera.yaml")])
  ∧ result (@validate_run ascii_repr run_intent_array sample_run_dir)
    = inl (Exc AttributeError "'list' object has no attribute 'get'")
  ∧ stdout (@validate_run ascii_repr run_intent_array sample_run_dir) = []
  ∧ result (@validate_run ascii_repr (run_of sample_config bundle_author_string) sample_run_dir)
    = inl (Exc AttributeError "'str' object has no attribute 'get'")
  ∧ stdout (@validate_run ascii_repr (run_of sample_config bundle_author_string) sample_run_dir)
    = [].
Proof. by vm_compute. Qed.

(** * Further properties of the validator and its command line *)

(** ** Discovery of the project root *)

Lemma find_project_root_total (fs : filesystem) (cur : path) :
  ∃ r, result (_find_project_root fs cur) = inr r.
Proof.
  induction cur as [|c cur [r IH]]; simpl.
  - destruct (fs_exists fs _); simpl; eauto.
  - destruct (fs_exists fs _); simpl; eauto.
Qed.

Lemma suffix_cons_cases {A} (l : list A) (x : A) (k : list A) :
  l `suffix_of` x :: k → l = x :: k ∨ l `suffix_of` k.
Proof.
  intros [[|y pre] E]; simpl in E; [by left|].
  right. exists pre. congruence.
Qed.

Lemma find_project_root_nil (fs : filesystem) :
  result (_find_project_root fs []) =
    if fs_exists fs ([] </> "chimera.yaml") then inr (Some []) else inr None.
Proof. simpl. by destruct (fs_exists fs _). Qed.

Lemma find_project_root_cons (fs : filesystem) (c : string) (cur : path) :
  result (_find_project_root fs (c :: cur)) =
    if fs_exists fs ((c :: cur) </> "chimera.yaml") then inr (Some (c :: cur))
    else result (_find_project_root fs cur).
Proof. simpl. by destruct (fs_exists fs _). Qed.

(** X1: when [_find_project_root] finds a root, it is the start directory
    or one of its ancestors, it holds a chimera.yaml, and no directory
    between the start and the root holds one: the nearest one wins. *)
Theorem find_project_root_nearest (fs : filesystem) (start root : path) :
  result (_find_project_root fs start) = inr (Some root) →
  root `suffix_of` start
  ∧ fs_exists fs (root </> "chimera.yaml") = true
  ∧ ∀ dir, dir `suffix_of` start → root `suffix_of` dir → dir ≠ root →
           fs_exists fs (dir </> "chimera.yaml") = false.
Proof.
  induction start as [|c start IH].
  - rewrite find_project_root_nil.
    destruct (fs_exists fs ([] </> "chimera.yaml")) eqn:E; [|done]. intros ?; simplify_eq.
    split; [reflexivity|]. split; [done|].
    intros dir Hdir _ Hne. by apply suffix_nil_inv in Hdir.
  - rewrite find_project_root_cons.
    destruct (fs_exists fs ((c :: start) </> "chimera.yaml")) eqn:E.
    + intros ?; simplify_eq. split; [reflexivity|]. split; [done|].
      intros dir Hdir Hroot Hne. destruct Hne. by apply (anti_symm suffix).
    + intros Hfound. destruct (IH Hfound) as (Hsuf & Hex & Hnear).
      split; [by apply suffix_cons_r|]. split; [done|].
      intros dir Hdir Hroot Hne.
      destruct (suffix_cons_cases _ _ _ Hdir) as [-> | Hdir']; [done|].
      by apply Hnear.
Qed.

Lemma find_project_root_none_iff (fs : filesystem) (start : path) :
  (∀ dir, dir `suffix_of` start → fs_exists fs (dir </> "chimera.yaml") = false)
  ↔ result (_find_project_root fs start) = inr None.
Proof.
  induction start as [|c start IH].
  - rewrite find_project_root_nil.
    destruct (fs_exists fs ([] </> "chimera.yaml")) eqn:E; split.
    + intros Hall. by rewrite (Hall [] (reflexivity _)) in E.
    + done.
    + done.
    + intros _ dir Hdir. by apply suffix_nil_inv in Hdir as ->.
  - rewrite find_project_root_cons.
    destruct (fs_exists fs ((c :: start) </> "chimera.yaml")) eqn:E; split.
    + intros Hall. by rewrite (Hall (c :: start) (reflexivity _)) in E.
    + done.
    + intros Hall. apply IH. intros dir Hdir. by apply Hall, suffix_cons_r.
    + intros Hnone dir Hdir.
      destruct (suffix_cons_cases _ _ _ Hdir) as [-> | Hdir']; [done|].
      by apply IH.
Qed.


(** ** Reads of fields: a value, or the fault of [.get] on a non-object *)

Lemma file_reads_app (l1 l2 : list event) :
  file_reads (l1 ++ l2) = file_reads l1 ++ file_reads l2.
Proof.
  induction l1 as [|[] l1 IH]; simpl; by rewrite ?IH.
Qed.

Lemma find_project_root_no_reads (fs : filesystem) (cur : path) :
  file_reads (trace (_find_project_root fs cur)) = [].
Proof.
  induction (find_project_root_trace fs cur) as [|ev l [dir ->] _ IH]; done.
Qed.

Lemma file_reads_exists (l : list path) : file_reads (EvExists <$> l) = [].
Proof. induction l as [|p l IH]; [done|]. rewrite fmap_cons. simpl. by rewrite IH. Qed.

Lemma file_reads_read (l : list path) : file_reads (EvRead <$> l) = l.
Proof. induction l as [|p l IH]; [done|]. rewrite fmap_cons. simpl. by rewrite IH. Qed.

Lemma stdout_of_exists (l : list path) : stdout_of (EvExists <$> l) = [].
Proof. induction l as [|p l IH]; [done|]. rewrite fmap_cons. simpl. by rewrite IH. Qed.

Lemma stdout_of_read (l : list path) : stdout_of (EvRead <$> l) = [].
Proof. induction l as [|p l IH]; [done|]. rewrite fmap_cons. simpl. by rewrite IH. Qed.

Section Whole_run.
Context `{StrRepr}.

Local Arguments cross_file_checks : simpl never.
Local Arguments config_version : simpl never.
Local Arguments config_roles : simpl never.
Local Arguments _load_artifacts : simpl never.

Lemma py_get_cases (d : json) (key : string) (default : json) :
  (∃ v, py_get d key default = mret v ∧ is_object d = true)
  ∨ (∃ msg, py_get d key default = raise (Exc AttributeError msg) ∧ is_object d = false).
Proof. destruct d; simpl; eauto. Qed.

Lemma run_id_of_cases (a : json) :
  (∃ s, run_id_of a = mret s ∧ is_object a = true)
  ∨ (∃ msg, run_id_of a = raise (Exc AttributeError msg) ∧ is_object a = false).
Proof.
  unfold run_id_of.
  destruct (py_get_cases a "run_id" (JStr "")) as [(v & -> & ?)|(msg & -> & ?)]; eauto.
Qed.

Lemma author_field_cases (a : json) (field : string) :
  (∃ s, author_field a field = mret s ∧ artifact_shaped a = true)
  ∨ (∃ msg, author_field a field = raise (Exc AttributeError msg)
            ∧ artifact_shaped a = false).
Proof.
  unfold author_field. destruct a as [| | | | | |members]; simpl; eauto.
  destruct (lookup_member "author" members) as [[]|]; simpl; eauto.
Qed.

Lemma config_version_cases (cfg : json) :
  (∃ version, config_version cfg = mret version ∧ is_object cfg = true)
  ∨ (∃ msg, config_version cfg = raise (Exc AttributeError msg) ∧ config_shaped cfg = false).
Proof. unfold config_version. destruct cfg; simpl; eauto. Qed.

Lemma config_roles_cases (cfg : json) :
  (∃ trunk branch, config_roles cfg = mret (trunk, branch) ∧ config_shaped cfg = true)
  ∨ (∃ msg, config_roles cfg = raise (Exc AttributeError msg) ∧ config_shaped cfg = false).
Proof.
  unfold config_roles. destruct cfg as [| | | | | |members]; simpl; eauto.
  destruct (lookup_member "roles" members) as [r|]; simpl; [|eauto].
  destruct (truthy r) eqn:Ht; simpl; [|eauto].
  destruct r; simpl; eauto.
Qed.


(** ** The artifact loader *)

Lemma load_artifacts_cases (fs : filesystem) (run_dir : path) :
  let exists_log := EvExists <$> artifact_paths run_dir in
  ((∃ p, p ∈ artifact_paths run_dir ∧ fs_exists fs p = false)
   ∧ _load_artifacts fs run_dir =
       (inl (Exc FileNotFoundError
               ("Missing artifact file(s): " +:+
                join ", " (path_name <$> filter (λ p, fs_exists fs p = false)
                                                (artifact_paths run_dir)))),
        exists_log))
  ∨ ((∀ q, q ∈ artifact_paths run_dir → fs_exists fs q = true)
     ∧ ∃ before p after e,
         artifact_paths run_dir = before ++ p :: after
         ∧ (∀ q, q ∈ before → ∃ v, fs_load fs q = inr v)
         ∧ fs_load fs p = inl e
         ∧ _load_artifacts fs run_dir = (inl e, exists_log ++ (EvRead <$> before ++ [p])))
  ∨ (∃ b, artifacts_loaded fs run_dir b
          ∧ _load_artifacts fs run_dir =
              (inr b, exists_log ++ (EvRead <$> artifact_paths run_dir))).
Proof.
  unfold _load_artifacts, _load_json, path_exists, artifact_paths. simpl.
  assert (∀ (P : path → Prop) (a b c : path), P a → P b → P c → ∀ q, q ∈ [a; b; c] → P q)
    as Hall.
  { intros P a b c Ha Hb Hc q. rewrite !elem_of_cons, elem_of_nil.
    intros [-> | [-> | [-> | []]]]; done. }
  destruct (fs_exists fs (run_dir </> "intent.json")) eqn:Ei,
           (fs_exists fs (run_dir </> "instructions.json")) eqn:En,
           (fs_exists fs (run_dir </> "diff.json")) eqn:Ed.
  2-8: left; split;
    [ first [ by (exists (run_dir </> "intent.json"); split; [set_solver|])
            | by (exists (run_dir </> "instructions.json"); split; [set_solver|])
            | by (exists (run_dir </> "diff.json"); split; [set_solver|]) ]
    | by rewrite ?filter_cons, ?filter_nil, ?Ei, ?En, ?Ed ].
  right. rewrite bool_decide_false by (by intros Hne; apply Hne). simpl.
  destruct (fs_load fs (run_dir </> "intent.json")) as [e|vi] eqn:Li; simpl.
  { left. split; [by apply Hall|].
    exists [], (run_dir </> "intent.json"),
           [run_dir </> "instructions.json"; run_dir </> "diff.json"], e.
    repeat split; try done. by intros q ?%elem_of_nil. }
  destruct (fs_load fs (run_dir </> "instructions.json")) as [e|vn] eqn:Ln; simpl.
  { left. split; [by apply Hall|].
    exists [run_dir </> "intent.json"], (run_dir </> "instructions.json"),
           [run_dir </> "diff.json"], e.
    repeat split; try done. intros q ->%list_elem_of_singleton. eauto. }
  destruct (fs_load fs (run_dir </> "diff.json")) as [e|vd] eqn:Ld; simpl.
  { left. split; [by apply Hall|].
    exists [run_dir </> "intent.json"; run_dir </> "instructions.json"],
           (run_dir </> "diff.json"), [], e.
    repeat split; try done. intros q. rewrite !elem_of_cons, elem_of_nil.
    intros [-> | [-> | []]]; eauto. }
  right. by exists {| intent := vi; instructions := vn; diff := vd |}.
Qed.

(** ** Every way out of the cross-file checks *)

Lemma is_object_shaped (a : json) : is_object a = false → artifact_shaped a = false.
Proof. by destruct a. Qed.

Lemma M_bind_raise {A B} (e : exception) (f : A → M B) : raise e ≫= f = raise e.
Proof. done. Qed.

Lemma cross_file_checks_cases (trunk branch : gset string) (b : ArtifactBundle) :
  (∃ msg, cross_file_checks trunk branch b = raise (Exc AttributeError msg)
          ∧ artifact_shaped (intent b) && artifact_shaped (instructions b)
            && artifact_shaped (diff b) = false)
  ∨ (∃ line, cross_file_checks trunk branch b = _err line)
  ∨ (∃ f, reads b f ∧ first_violation trunk branch f = None
          ∧ cross_file_checks trunk branch b = _ok "Artifacts validated successfully.").
Proof.
  unfold cross_file_checks, _check_run_id_consistency.
  destruct (run_id_of_cases (intent b)) as [(r1 & H1 & _)|(msg & -> & Hs)].
  2: { left. exists msg. split; [done|]. by rewrite (is_object_shaped _ Hs). }
  destruct (run_id_of_cases (instructions b)) as [(r2 & H2 & _)|(msg & H2 & Hs)].
  2: { left. exists msg. rewrite H1, H2. split; [done|].
       rewrite (is_object_shaped _ Hs). by rewrite andb_false_r. }
  destruct (run_id_of_cases (diff b)) as [(r3 & H3 & _)|(msg & H3 & Hs)].
  2: { left. exists msg. rewrite H1, H2, H3. split; [done|].
       rewrite (is_object_shaped _ Hs). by rewrite andb_false_r. }
  rewrite H1, H2, H3, !M_bind_ret.
  destruct (negb _) eqn:Hpresent; [right; left; by eexists|].
  destruct (negb (bool_decide (r1 = r2) && _)) eqn:Hequal; [right; left; by eexists|].
  rewrite M_bind_ret. simpl.
  destruct (author_field_cases (intent b) "actor") as [(actor & Ha & Hs)|(msg & -> & Hs)].
  2: { left. exists msg. split; [done|]. by rewrite Hs. }
  destruct (author_field_cases (intent b) "role") as [(role & Hr & _)|(msg & _ & Hs')];
    [|congruence].
  rewrite Ha, Hr, !M_bind_ret.
  destruct (bool_decide (role ≠ "TRUNK")) eqn:Hrole; [right; left; by eexists|].
  destruct (bool_decide (actor ∉ trunk)) eqn:Htrunk; [right; left; by eexists|].
  destruct (author_field_cases (instructions b) "actor") as [(ia & Hi & _)|(msg & -> & Hs')].
  2: { left. exists msg. split; [done|]. by rewrite Hs', andb_false_r. }
  destruct (author_field_cases (diff b) "actor") as [(da & Hd & _)|(msg & Hd & Hs')].
  2: { left. exists msg. rewrite Hi, Hd. split; [done|]. by rewrite Hs', andb_false_r. }
  rewrite Hi, Hd, !M_bind_ret.
  destruct (bool_decide (ia ∉ branch)) eqn:Hinstr; [right; left; by eexists|].
  destruct (bool_decide (da ∉ branch)) eqn:Hdiff; [right; left; by eexists|].
  right. right.
  exists {| rid_intent := r1; rid_instr := r2; rid_diff := r3; intent_role := role;
            intent_actor := actor; instr_actor := ia; diff_actor := da |}.
  split; [by split|]. split; [|done].
  unfold first_violation. simpl.
  apply negb_false_iff in Hpresent, Hequal.
  apply andb_true_iff in Hpresent as [Hp12 P3]. apply andb_true_iff in Hp12 as [P1 P2].
  apply andb_true_iff in Hequal as [E1 E2].
  apply bool_decide_eq_true in P1, P2, P3, E1, E2.
  rewrite Hrole, Htrunk, Hinstr, Hdiff.
  by rewrite !bool_decide_false by tauto.
Qed.

Lemma cross_file_checks_no_reads (trunk branch : gset string) (b : ArtifactBundle) :
  file_reads (trace (cross_file_checks trunk branch b)) = [].
Proof.
  destruct (cross_file_checks_cases trunk branch b)
    as [(msg & -> & _) | [(line & ->) | (f & _ & _ & ->)]]; done.
Qed.

(** ** Every way out of [validate_run] *)

Ltac settle_logs Hsilent Hnoreads :=
  unfold result, stdout, trace; simpl;
  rewrite ?stdout_of_app, ?file_reads_app, ?stdout_of_exists, ?stdout_of_read,
    ?file_reads_exists, ?file_reads_read, ?Hsilent, ?Hnoreads;
  simpl; rewrite ?app_nil_r.

Local Opaque _load_artifacts.

Lemma validate_run_exit_path (fs : filesystem) (run_dir : path) :
  exit_path fs run_dir (result (validate_run fs run_dir))
    (stdout (validate_run fs run_dir)) (file_reads (trace (validate_run fs run_dir))).
Proof.
  pose proof (find_project_root_silent fs run_dir) as Hsilent.
  pose proof (find_project_root_no_reads fs run_dir) as Hnoreads.
  destruct (find_project_root_total fs run_dir) as [found Hfound].
  unfold validate_run, path_exists, path_is_dir.
  destruct (fs_exists fs run_dir) eqn:Hex.
  2: { settle_logs Hsilent Hnoreads. apply ExitNoRunDir. by left. }
  destruct (fs_is_dir fs run_dir) eqn:Hdir.
  2: { settle_logs Hsilent Hnoreads. apply ExitNoRunDir. by right. }
  destruct (_find_project_root fs run_dir) as [r log] eqn:Hfind.
  unfold result, stdout, trace in Hsilent, Hnoreads, Hfound. simpl in Hsilent, Hnoreads, Hfound.
  subst r.
  assert (result (_find_project_root fs run_dir) = inr found) as Hroot by (by rewrite Hfind).
  clear Hfind. destruct found as [root|].
  2: { settle_logs Hsilent Hnoreads. by apply ExitNoRoot. }
  simpl. unfold try_except, _load_yaml_json.
  destruct (fs_load fs (root </> "chimera.yaml")) as [e|cfg] eqn:Hcfg.
  { settle_logs Hsilent Hnoreads. by apply (ExitConfigLoad _ _ root e). }
  assert (discovered fs run_dir root cfg) as Hdisc.
  { split; try done. }
  simpl.
  destruct (config_version_cases cfg) as [(version & Hver & _)|(msg & Hver & Hshape)];
    rewrite Hver; simpl.
  2: { settle_logs Hsilent Hnoreads. by apply (ExitConfigFault _ _ root cfg). }
  case_bool_decide as Hpin; simpl.
  { settle_logs Hsilent Hnoreads. by apply (ExitVersion _ _ root cfg). }
  subst version.
  destruct (config_roles_cases cfg) as [(trunk & branch & Hroles & _)|(msg & Hroles & Hshape)];
    rewrite Hroles; simpl.
  2: { settle_logs Hsilent Hnoreads. by apply (ExitConfigFault _ _ root cfg). }
  destruct (load_artifacts_cases fs run_dir)
    as [[Hmiss ->] | [[Hall (before & p & after & e & Hsplit & Hbefore & Hp & ->)]
                     | (b & Hloaded & ->)]].
  - settle_logs Hsilent Hnoreads. by eapply (ExitMissing _ _ root cfg).
  - assert (exit_path fs run_dir (inr false) [artifact_error_line e]
              (root </> "chimera.yaml" :: before ++ [p])) as Hexit.
    { by eapply (ExitArtifactLoad _ _ root cfg). }
    unfold artifact_error_line in Hexit.
    destruct (exc_class e); do 2 settle_logs Hsilent Hnoreads; exact Hexit.
  - pose proof (ExitChecks _ _ root cfg trunk branch b Hdisc Hver Hroles Hloaded) as Hexit.
    pose proof (cross_file_checks_no_reads trunk branch b) as Hchecks.
    unfold trace in Hchecks.
    do 2 settle_logs Hsilent Hnoreads. rewrite Hchecks. exact Hexit.
Qed.

Local Transparent _load_artifacts.

Lemma exit_path_outcome (fs : filesystem) (run_dir : path)
    (r : exception + bool) (out : list string) (rd : list path) :
  exit_path fs run_dir r out rd →
  match r with
  | inr ok =>
      ∃ line, out = [line] ∧ (ok = true → line = "Artifacts validated successfully.")
  | inl e => exc_class e = AttributeError ∧ out = []
  end.
Proof.
  destruct 1; try (by eexists); try done.
  destruct (cross_file_checks_cases trunk branch b)
    as [(msg & -> & _) | [(line & ->) | (f & _ & _ & ->)]]; try done; by eexists.
Qed.

Lemma exit_path_reads (fs : filesystem) (run_dir : path)
    (r : exception + bool) (out : list string) (rd : list path) :
  exit_path fs run_dir r out rd →
  ∃ root, rd `prefix_of` root </> "chimera.yaml" :: artifact_paths run_dir.
Proof.
  destruct 1; try (exists []; apply prefix_nil); exists root;
    try (by apply prefix_cons, prefix_nil); [|done].
  apply prefix_cons. exists after. rewrite <- app_assoc. done.
Qed.

(** The conditions under which the cross-file checks pass. *)
Lemma first_violation_none (trunk branch : gset string) (f : fields) :
  first_violation trunk branch f = None →
  (rid_intent f ≠ "" ∧ rid_instr f ≠ "" ∧ rid_diff f ≠ "")
  ∧ (rid_intent f = rid_instr f ∧ rid_instr f = rid_diff f)
  ∧ intent_role f = "TRUNK"
  ∧ intent_actor f ∈ trunk
  ∧ instr_actor f ∈ branch
  ∧ diff_actor f ∈ branch.
Proof.
  unfold first_violation. simpl.
  repeat case_bool_decide; try done. intros _.
  repeat match goal with Hn : ¬ (_ ≠ _) |- _ => apply dec_stable in Hn end.
  repeat match goal with Hn : ¬ (_ ∉ _) |- _ => apply dec_stable in Hn end.
  repeat match goal with Hn : ¬ ¬ _ |- _ => apply dec_stable in Hn end.
  repeat split; try tauto. all: intros ->; tauto.
Qed.

Lemma exit_path_accepted (fs : filesystem) (run_dir : path)
    (r : exception + bool) (out : list string) (rd : list path) :
  exit_path fs run_dir r out rd →
  r = inr true →
  ∃ root cfg trunk branch b f,
    discovered fs run_dir root cfg
    ∧ config_version cfg = mret "1.0"
    ∧ config_roles cfg = mret (trunk, branch)
    ∧ artifacts_loaded fs run_dir b
    ∧ reads b f
    ∧ first_violation trunk branch f = None.
Proof.
  destruct 1; try done.
  destruct (cross_file_checks_cases trunk branch b)
    as [(msg & -> & _) | [(line & ->) | (f & Hreads & Hnone & ->)]]; try done.
  intros _. by exists root, cfg, trunk, branch, b, f.
Qed.

(** ** Early exits *)

Ltac exit_cases fs run_dir :=
  let r := fresh "r" in
  let out := fresh "out" in
  let rd := fresh "rd" in
  let Hexit := fresh "Hexit" in
  generalize (validate_run_exit_path fs run_dir);
  generalize (result (validate_run fs run_dir)) (stdout (validate_run fs run_dir))
             (file_reads (trace (validate_run fs run_dir)));
  intros r out rd Hexit; destruct Hexit;
  repeat match goal with Hd : discovered _ _ _ _ |- _ => destruct Hd end.

(** X5: when the chimera.yaml that was found cannot be read or decoded,
    whatever the exception, [validate_run] returns false with the line
    "Failed to load chimera.yaml: " followed by the text of the exception,
    and reads no other file. *)
Theorem validate_run_config_load_failure (fs : filesystem) (run_dir root : path)
    (e : exception) :
  fs_exists fs run_dir = true →
  fs_is_dir fs run_dir = true →
  result (_find_project_root fs run_dir) = inr (Some root) →
  fs_load fs (root </> "chimera.yaml") = inl e →
  result (validate_run fs run_dir) = inr false
  ∧ stdout (validate_run fs run_dir) = ["Failed to load chimera.yaml: " +:+ exc_msg e]
  ∧ file_reads (trace (validate_run fs run_dir)) = [root </> "chimera.yaml"].
Proof.
  intros Hex Hdir Hroot Hload.
  exit_cases fs run_dir; try done; try (destruct_or?; congruence).
  assert (root0 = root) as -> by congruence.
  by assert (e0 = e) as -> by congruence.
Qed.

(** X4: when the run directory exists and neither it nor any of its
    ancestors holds a chimera.yaml, [validate_run] returns false with the
    line about the project root, and reads no file. *)
Theorem validate_run_requires_project_root (fs : filesystem) (run_dir : path) :
  fs_exists fs run_dir = true →
  fs_is_dir fs run_dir = true →
  (∀ dir, dir `suffix_of` run_dir → fs_exists fs (dir </> "chimera.yaml") = false) →
  result (validate_run fs run_dir) = inr false
  ∧ stdout (validate_run fs run_dir)
    = ["Could not locate project root containing 'chimera.yaml'."]
  ∧ file_reads (trace (validate_run fs run_dir)) = [].
Proof.
  intros Hex Hdir Hnone. apply find_project_root_none_iff in Hnone.
  exit_cases fs run_dir; try done; try (destruct_or?; congruence).
Qed.

(** X6: when the three artifacts are present and one of them cannot be
    read or decoded, [validate_run] returns false at the first such file in
    the order intent, instructions, diff; the line is the text of the
    exception for a FileNotFoundError and that text after "Failed to load
    artifacts: " otherwise; the files after the failing one are not read. *)
Theorem validate_run_artifact_load_failure (fs : filesystem) (run_dir root : path)
    (cfg : json) (trunk branch : gset string)
    (before after : list path) (p : path) (e : exception) :
  discovered fs run_dir root cfg →
  config_version cfg = mret "1.0" →
  config_roles cfg = mret (trunk, branch) →
  (∀ q, q ∈ artifact_paths run_dir → fs_exists fs q = true) →
  artifact_paths run_dir = before ++ p :: after →
  (∀ q, q ∈ before → ∃ v, fs_load fs q = inr v) →
  fs_load fs p = inl e →
  result (validate_run fs run_dir) = inr false
  ∧ stdout (validate_run fs run_dir) = [artifact_error_line e]
  ∧ file_reads (trace (validate_run fs run_dir)) = root </> "chimera.yaml" :: before ++ [p].
Proof.
  intros [Hex Hdir Hroot Hcfg] Hver Hroles Hall Hsplit Hbefore Hp.
  pose proof (find_project_root_silent fs run_dir) as Hsilent.
  pose proof (find_project_root_no_reads fs run_dir) as Hnoreads.
  pose proof (Hall (run_dir </> "intent.json")) as Ei.
  pose proof (Hall (run_dir </> "instructions.json")) as En.
  pose proof (Hall (run_dir </> "diff.json")) as Ed.
  unfold artifact_paths in *.
  rewrite !elem_of_cons in Ei, En, Ed.
  unfold validate_run, path_exists, path_is_dir.
  destruct (_find_project_root fs run_dir) as [r log].
  unfold result, stdout, trace in *. simpl in Hroot, Hsilent, Hnoreads. subst r.
  rewrite Hex, Hdir. simpl.
  unfold try_except, _load_yaml_json. rewrite Hcfg. simpl.
  rewrite Hver. simpl. rewrite Hroles. simpl.
  unfold _load_artifacts, _load_json, path_exists. simpl.
  rewrite Ei, En, Ed by tauto. simpl.
  unfold artifact_error_line.
  destruct before as [|q1 [|q2 [|q3 before]]]; simplify_eq/=.
  - rewrite Hp. simpl. destruct (exc_class e); by settle_logs Hsilent Hnoreads.
  - destruct (Hbefore (run_dir </> "intent.json")) as [vi Hi]; [set_solver|].
    rewrite Hi, Hp. simpl. destruct (exc_class e); by settle_logs Hsilent Hnoreads.
  - destruct (Hbefore (run_dir </> "intent.json")) as [vi Hi]; [set_solver|].
    destruct (Hbefore (run_dir </> "instructions.json")) as [vn Hn]; [set_solver|].
    rewrite Hi, Hn, Hp. simpl. destruct (exc_class e); by settle_logs Hsilent Hnoreads.
  - by destruct before.
Qed.


(** ** What a run prints, raises and reads *)

(** X7: whenever [validate_run] returns a boolean it has printed exactly
    one line, and when that boolean is true the line is the success line. *)
Theorem validate_run_prints_one_line (fs : filesystem) (run_dir : path) (ok : bool) :
  result (validate_run fs run_dir) = inr ok →
  ∃ line, stdout (validate_run fs run_dir) = [line]
          ∧ (ok = true → line = "Artifacts validated successfully.").
Proof.
  intros Hres.
  pose proof (exit_path_outcome _ _ _ _ _ (validate_run_exit_path fs run_dir)) as Hout.
  by rewrite Hres in Hout.
Qed.


(** X9: [validate_run] returns true only for a run whose directory exists,
    whose configuration is found and has version "1.0", whose three
    artifacts are present and decode, and whose fields pass every check:
    run identifiers non-empty and equal, intent role "TRUNK", intent actor
    in the TRUNK set, instructions and diff actors in the BRANCH set. *)
Theorem validate_run_true_sound (fs : filesystem) (run_dir : path) :
  result (validate_run fs run_dir) = inr true →
  ∃ root cfg trunk branch b f,
    discovered fs run_dir root cfg
    ∧ config_version cfg = mret "1.0"
    ∧ config_roles cfg = mret (trunk, branch)
    ∧ artifacts_loaded fs run_dir b
    ∧ reads b f
    ∧ (rid_intent f ≠ "" ∧ rid_instr f ≠ "" ∧ rid_diff f ≠ "")
    ∧ (rid_intent f = rid_instr f ∧ rid_instr f = rid_diff f)
    ∧ intent_role f = "TRUNK"
    ∧ intent_actor f ∈ trunk
    ∧ instr_actor f ∈ branch
    ∧ diff_actor f ∈ branch.
Proof.
  intros Hres.
  destruct (exit_path_accepted _ _ _ _ _ (validate_run_exit_path fs run_dir) Hres)
    as (root & cfg & trunk & branch & b & f & Hdisc & Hver & Hroles & Hload & Hreads & Hnone).
  exists root, cfg, trunk, branch, b, f.
  repeat (split; [done|]). by apply first_violation_none.
Qed.

(** X10: the files [validate_run] reads are, in this order, the chimera.yaml
    of one directory and then intent.json, instructions.json and diff.json
    of the run directory, or a first part of that list: at most four reads,
    each file at most once, and no other file. *)
Theorem validate_run_reads_bounded (fs : filesystem) (run_dir : path) :
  ∃ root, file_reads (trace (validate_run fs run_dir))
          `prefix_of` root </> "chimera.yaml" :: artifact_paths run_dir.
Proof. exact (exit_path_reads _ _ _ _ _ (validate_run_exit_path fs run_dir)). Qed.


(** X13: a configuration whose roles entry is absent, null or otherwise
    falsy gives empty role sets, so no run under it is ever accepted. *)
Theorem validate_run_without_roles_rejects (fs : filesystem) (run_dir root : path)
    (cfg r : json) :
  discovered fs run_dir root cfg →
  py_get cfg "roles" JNull = mret r →
  truthy r = false →
  result (validate_run fs run_dir) ≠ inr true.
Proof.
  intros [Hex Hdir Hroot Hcfg] Hget Hfalsy Hres.
  destruct (exit_path_accepted _ _ _ _ _ (validate_run_exit_path fs run_dir) Hres)
    as (root' & cfg' & trunk & branch & b & f & [_ _ Hroot' Hcfg'] & _ & Hroles & _ & _ & Hnone).
  assert (root' = root) as -> by congruence.
  assert (cfg' = cfg) as -> by congruence.
  unfold config_roles in Hroles. rewrite Hget, M_bind_ret, Hfalsy in Hroles.
  simpl in Hroles. injection Hroles as <- <-.
  apply first_violation_none in Hnone as (_ & _ & _ & Hin & _).
  set_solver.
Qed.

(** ** The artifact loader on its own *)

(** X12: when one or more of the three artifact files is absent,
    [_load_artifacts] raises FileNotFoundError with the names of the absent
    files, in the order intent.json, instructions.json, diff.json and
    separated by ", ", after having asked for the existence of the three
    files and without reading any of them. *)
Theorem load_artifacts_missing (fs : filesystem) (run_dir : path) :
  (∃ p, p ∈ artifact_paths run_dir ∧ fs_exists fs p = false) →
  _load_artifacts fs run_dir =
    (inl (Exc FileNotFoundError
            ("Missing artifact file(s): " +:+
             join ", " (path_name <$> filter (λ p, fs_exists fs p = false)
                                             (artifact_paths run_dir)))),
     EvExists <$> artifact_paths run_dir).
Proof.
  intros (p & Hp & Habsent).
  destruct (load_artifacts_cases fs run_dir)
    as [[_ ->] | [[Hall _] | (b & [Ei En Ed _ _ _] & _)]]; [done| |].
  - by rewrite (Hall p Hp) in Habsent.
  - unfold artifact_paths in Hp. rewrite !elem_of_cons, elem_of_nil in Hp.
    destruct Hp as [-> | [-> | [-> | []]]]; congruence.
Qed.

(** ** Missing keys *)

(** X14: an artifact that is an object without a run_id key is read as
    having the empty run identifier, so the run is rejected with the line
    about a missing run_id. *)
Theorem validate_run_absent_run_id (fs : filesystem) (run_dir : path)
    (trunk branch : gset string) (b : ArtifactBundle)
    (a : json) (members : list (string * json)) :
  reaches_checks fs run_dir trunk branch b →
  is_object (intent b) = true →
  is_object (instructions b) = true →
  is_object (diff b) = true →
  a ∈ [intent b; instructions b; diff b] →
  a = JObj members →
  lookup_member "run_id" members = None →
  result (validate_run fs run_dir) = inr false
  ∧ stdout (validate_run fs run_dir) =
      ["Missing run_id in one or more artifacts (files: intent.json, instructions.json, diff.json)."].
Proof.
  intros Hreach Oi On Od Ha -> Hnone.
  assert (run_id_of (JObj members) = mret "") as Hempty.
  { unfold run_id_of. simpl. by rewrite Hnone. }
  destruct (run_id_of_cases (intent b)) as [(r1 & H1 & _)|(? & _ & ?)]; [|congruence].
  destruct (run_id_of_cases (instructions b)) as [(r2 & H2 & _)|(? & _ & ?)]; [|congruence].
  destruct (run_id_of_cases (diff b)) as [(r3 & H3 & _)|(? & _ & ?)]; [|congruence].
  apply (validate_run_reaches_err _ _ _ _ _ _ Hreach).
  apply cross_file_checks_inconsistent.
  rewrite (check_run_id_consistency_reads b r1 r2 r3 H1 H2 H3).
  rewrite bool_decide_true; [done|].
  rewrite !elem_of_cons, elem_of_nil in Ha.
  destruct Ha as [Ha | [Ha | [Ha | []]]]; rewrite <- Ha in *;
    [left | right; left | right; right];
    match goal with Hr : run_id_of _ = mret ?r |- ?r = "" =>
      rewrite Hempty in Hr; by injection Hr end.
Qed.

(** X15: an intent that is an object without an author key is read with
    the empty role, so a run that passes the run-id checks is rejected at
    the role gate, before any membership is looked at. *)
Theorem validate_run_absent_intent_author (fs : filesystem) (run_dir : path)
    (trunk branch : gset string) (b : ArtifactBundle) (members : list (string * json)) :
  reaches_checks fs run_dir trunk branch b →
  _check_run_id_consistency b = mret true →
  intent b = JObj members →
  lookup_member "author" members = None →
  result (validate_run fs run_dir) = inr false
  ∧ stdout (validate_run fs run_dir) =
      ["Intent author role must be TRUNK (file: intent.json, field: author.role)."].
Proof.
  intros Hreach Hids Hintent Hnone.
  assert (∀ field, author_field (intent b) field = mret "") as Hfield.
  { intros field. unfold author_field. rewrite Hintent. simpl. by rewrite Hnone. }
  apply (validate_run_reaches_err _ _ _ _ _ _ Hreach).
  by apply (cross_file_checks_intent trunk branch b "" "" Hids (Hfield _) (Hfield _)).
Qed.

(** ** The command line *)

Local Opaque validate_run.

(** X16: [_cmd_validate] never raises: it ends with exit code 0 or 1 after
    printing exactly one line, and the code is 0 exactly when the validator
    was imported and [validate_run] returned true. *)
Theorem cmd_validate_exit_code (import_va : option exception)
    (fs : filesystem) (run_path : path) :
  ∃ code line,
    result (_cmd_validate import_va fs run_path) = inr code
    ∧ stdout (_cmd_validate import_va fs run_path) = [line]
    ∧ (code = 0%Z ∨ code = 1%Z)
    ∧ (code = 0%Z ↔ import_va = None ∧ result (validate_run fs run_path) = inr true).
Proof.
  pose proof (exit_path_outcome _ _ _ _ _ (validate_run_exit_path fs run_path)) as Hout.
  destruct import_va as [e|].
  { exists 1%Z, ("Failed to import validator: " +:+ exc_msg e).
    split; [done|]. split; [done|]. split; [by right|]. split; [done|]. by intros [? _]. }
  unfold _cmd_validate, try_except, result, stdout, trace in *.
  destruct (validate_run fs run_path) as [[e|ok] log]; simpl in *.
  - destruct Hout as [-> Hquiet]. simpl. rewrite stdout_of_app, Hquiet.
    exists 1%Z, ("Unexpected error during validation: " +:+ exc_msg e).
    split; [done|]. split; [done|]. split; [by right|]. split; [done|]. by intros [_ ?].
  - destruct Hout as (line & Hline & _). rewrite app_nil_r.
    exists (if ok then 0%Z else 1%Z), line.
    split; [done|]. split; [done|]. destruct ok.
    + split; [by left|]. done.
    + split; [by right|]. split; [done|]. by intros [_ ?].
Qed.


Local Transparent validate_run.

(** ** The version pin *)

Lemma pretty_N_char_not_dot (x : N) (s : string) : String (pretty_N_char x) s ≠ "." +:+ s.
Proof. compute. by repeat (discriminate || case_match). Qed.

Lemma pretty_N_go_not_1_0_far (x : N) (s : string) :
  s ≠ "" → s ≠ "0" → s ≠ ".0" → s ≠ "1.0" → pretty_N_go x s ≠ "1.0".
Proof.
  revert s. induction (N.lt_wf_0 x) as [x _ IH]; intros s N0 N1 N2 N3.
  destruct (decide (x = 0%N)) as [-> | Hpos]; [by rewrite pretty_N_go_0|].
  rewrite pretty_N_go_step by lia.
  apply IH; [apply N.div_lt; lia|done|..]; intros [= ? ?]; by subst.
Qed.

Lemma pretty_N_go_not_1_0_zero (x : N) : pretty_N_go x "0" ≠ "1.0".
Proof.
  destruct (decide (x = 0%N)) as [-> | Hpos]; [by rewrite pretty_N_go_0|].
  rewrite pretty_N_go_step by lia.
  apply pretty_N_go_not_1_0_far; try done.
  apply pretty_N_char_not_dot.
Qed.

Lemma pretty_N_go_not_1_0 (x : N) : pretty_N_go x "" ≠ "1.0".
Proof.
  destruct (decide (x = 0%N)) as [-> | Hpos]; [by rewrite pretty_N_go_0|].
  rewrite pretty_N_go_step by lia.
  destruct (decide (String (pretty_N_char (x `mod` 10)) "" = "0")) as [-> | Hd].
  - apply pretty_N_go_not_1_0_zero.
  - by apply pretty_N_go_not_1_0_far.
Qed.

Lemma pretty_Z_not_1_0 (z : Z) : pretty z ≠ "1.0".
Proof.
  destruct z as [|p|p]; [done| |done].
  unfold pretty, pretty_Z, pretty, pretty_positive, pretty, pretty_N.
  rewrite decide_False by done. apply pretty_N_go_not_1_0.
Qed.

(** X18: the version pin is passed exactly by a configuration object whose
    version is the string "1.0" or the number 1.0; null, a boolean, an
    integer, a list, an object or an absent version never coerces to
    "1.0". *)
Theorem version_pin_accepts (cfg : json) :
  config_version cfg = mret "1.0"
  ↔ ∃ members, cfg = JObj members
      ∧ (lookup_member "version" members = Some (JStr "1.0")
         ∨ lookup_member "version" members = Some (JFloat "1.0")).
Proof.
  unfold config_version. split.
  - destruct cfg as [| | | | | |members]; try done. simpl.
    intros Hver. exists members. split; [done|].
    destruct (lookup_member "version" members) as [v|]; [|done].
    simpl in Hver. injection Hver as Hstr.
    destruct v as [|[]|z|r|s|items|ms]; try done; simpl in Hstr.
    + by destruct (pretty_Z_not_1_0 z).
    + right. by subst.
    + left. by subst.
  - intros (members & -> & [Hv | Hv]); simpl; by rewrite Hv.
Qed.

End Whole_run.

(** ** The further properties on the sample runs *)

Lemma sample_run_discovered (cfg : exception + json) (i n d : option (exception + json))
    (v : json) :
  cfg = inr v → discovered (_make_run cfg i n d) sample_run_dir project_root v.
Proof. intros ->. destruct i, n, d; by split. Defined.

Lemma find_project_root_nearest_witness :
  project_root `suffix_of` sample_run_dir
  ∧ fs_exists run_valid (project_root </> "chimera.yaml") = true
  ∧ ∀ dir, dir `suffix_of` sample_run_dir → project_root `suffix_of` dir →
           dir ≠ project_root → fs_exists run_valid (dir </> "chimera.yaml") = false.
Proof. apply (find_project_root_nearest run_valid sample_run_dir project_root). reflexivity. Defined.


Lemma sample_dirs_without_config (dir : path) :
  dir `suffix_of` sample_run_dir →
  fs_exists run_without_config (dir </> "chimera.yaml") = false.
Proof.
  intros Hdir.
  destruct (suffix_cons_cases _ _ _ Hdir) as [-> | Hdir1]; [reflexivity|].
  destruct (suffix_cons_cases _ _ _ Hdir1) as [-> | Hdir2]; [reflexivity|].
  destruct (suffix_cons_cases _ _ _ Hdir2) as [-> | Hdir3]; [reflexivity|].
  apply suffix_nil_inv in Hdir3 as ->. reflexivity.
Defined.

Lemma validate_run_requires_project_root_witness :
  result (@validate_run ascii_repr run_without_config sample_run_dir) = inr false
  ∧ stdout (@validate_run ascii_repr run_without_config sample_run_dir)
    = ["Could not locate project root containing 'chimera.yaml'."]
  ∧ file_reads (trace (@validate_run ascii_repr run_without_config sample_run_dir)) = [].
Proof.
  apply (@validate_run_requires_project_root ascii_repr run_without_config sample_run_dir).
  - reflexivity.
  - reflexivity.
  - exact sample_dirs_without_config.
Defined.

Lemma validate_run_config_load_failure_witness :
  result (@validate_run ascii_repr run_config_malformed sample_run_dir) = inr false
  ∧ stdout (@validate_run ascii_repr run_config_malformed sample_run_dir)
    = ["Failed to load chimera.yaml: Expecting value: line 1 column 1 (char 0)"]
  ∧ file_reads (trace (@validate_run ascii_repr run_config_malformed sample_run_dir))
    = [project_root </> "chimera.yaml"].
Proof.
  apply (@validate_run_config_load_failure ascii_repr run_config_malformed sample_run_dir
           project_root decode_error); reflexivity.
Defined.

Lemma validate_run_artifact_load_failure_witness :
  result (@validate_run ascii_repr run_instructions_malformed sample_run_dir) = inr false
  ∧ stdout (@validate_run ascii_repr run_instructions_malformed sample_run_dir)
    = ["Failed to load artifacts: Expecting value: line 1 column 1 (char 0)"]
  ∧ file_reads (trace (@validate_run ascii_repr run_instructions_malformed sample_run_dir))
    = [project_root </> "chimera.yaml"; sample_run_dir </> "intent.json";
       sample_run_dir </> "instructions.json"].
Proof.
  apply (@validate_run_artifact_load_failure ascii_repr run_instructions_malformed
           sample_run_dir project_root sample_config sample_trunk sample_branch
           [sample_run_dir </> "intent.json"] [sample_run_dir </> "diff.json"]
           (sample_run_dir </> "instructions.json") decode_error).
  - by apply sample_run_discovered.
  - reflexivity.
  - reflexivity.
  - intros q Hq. unfold artifact_paths in Hq. rewrite !elem_of_cons, elem_of_nil in Hq.
    destruct Hq as [-> | [-> | [-> | []]]]; reflexivity.
  - reflexivity.
  - intros q Hq. apply list_elem_of_singleton in Hq as ->. by eexists.
  - reflexivity.
Defined.

Lemma validate_run_prints_one_line_witness :
  ∃ line, stdout (@validate_run ascii_repr run_valid sample_run_dir) = [line]
          ∧ (true = true → line = "Artifacts validated successfully.").
Proof.
  apply (@validate_run_prints_one_line ascii_repr run_valid sample_run_dir true).
  by vm_compute.
Defined.


Lemma validate_run_true_sound_witness :
  ∃ root cfg trunk branch b f,
    discovered run_valid sample_run_dir root cfg
    ∧ @config_version ascii_repr cfg = mret "1.0"
    ∧ @config_roles ascii_repr cfg = mret (trunk, branch)
    ∧ artifacts_loaded run_valid sample_run_dir b
    ∧ @reads ascii_repr b f
    ∧ (rid_intent f ≠ "" ∧ rid_instr f ≠ "" ∧ rid_diff f ≠ "")
    ∧ (rid_intent f = rid_instr f ∧ rid_instr f = rid_diff f)
    ∧ intent_role f = "TRUNK"
    ∧ intent_actor f ∈ trunk
    ∧ instr_actor f ∈ branch
    ∧ diff_actor f ∈ branch.
Proof.
  apply (@validate_run_true_sound ascii_repr run_valid sample_run_dir).
  by vm_compute.
Defined.

Lemma run_valid_configs_shaped (dir : path) (cfg : json) :
  fs_load run_valid (dir </> "chimera.yaml") = inr cfg → config_shaped cfg = true.
Proof.
  unfold run_valid, run_of, _make_run, make_fs, child. simpl.
  repeat case_decide; simplify_eq/=; try done; by intros [= <-].
Defined.

Lemma run_valid_artifacts_shaped (p : path) (a : json) :
  p ∈ artifact_paths sample_run_dir →
  fs_load run_valid p = inr a → artifact_shaped a = true.
Proof.
  unfold artifact_paths. rewrite !elem_of_cons, elem_of_nil.
  intros [-> | [-> | [-> | []]]]; by intros [= <-].
Defined.


Lemma load_artifacts_missing_witness :
  _load_artifacts run_without_diff sample_run_dir =
    (inl (Exc FileNotFoundError "Missing artifact file(s): diff.json"),
     [EvExists (sample_run_dir </> "intent.json");
      EvExists (sample_run_dir </> "instructions.json");
      EvExists (sample_run_dir </> "diff.json")]).
Proof.
  apply (load_artifacts_missing run_without_diff sample_run_dir).
  exists (sample_run_dir </> "diff.json"). split; [|reflexivity].
  apply (bool_decide_unpack _). by vm_compute.
Defined.

Lemma validate_run_without_roles_rejects_witness :
  result (@validate_run ascii_repr (run_of config_no_roles bundle_valid) sample_run_dir)
  ≠ inr true.
Proof.
  apply (@validate_run_without_roles_rejects ascii_repr
           (run_of config_no_roles bundle_valid) sample_run_dir project_root
           config_no_roles JNull).
  - by apply sample_run_discovered.
  - reflexivity.
  - reflexivity.
Defined.

Lemma validate_run_absent_run_id_witness :
  result (@validate_run ascii_repr (run_of sample_config bundle_no_run_id) sample_run_dir)
    = inr false
  ∧ stdout (@validate_run ascii_repr (run_of sample_config bundle_no_run_id) sample_run_dir) =
      ["Missing run_id in one or more artifacts (files: intent.json, instructions.json, diff.json)."].
Proof.
  apply (@validate_run_absent_run_id ascii_repr
           (run_of sample_config bundle_no_run_id) sample_run_dir sample_trunk sample_branch
           bundle_no_run_id (JObj diff_no_run_id) diff_no_run_id).
  - apply sample_run_reaches.
  - reflexivity.
  - reflexivity.
  - reflexivity.
  - do 2 apply list_elem_of_further. apply list_elem_of_here.
  - reflexivity.
  - reflexivity.
Defined.

Lemma validate_run_absent_intent_author_witness :
  result (@validate_run ascii_repr (run_of sample_config bundle_no_author) sample_run_dir)
    = inr false
  ∧ stdout (@validate_run ascii_repr (run_of sample_config bundle_no_author) sample_run_dir) =
      ["Intent author role must be TRUNK (file: intent.json, field: author.role)."].
Proof.
  apply (@validate_run_absent_intent_author ascii_repr
           (run_of sample_config bundle_no_author) sample_run_dir sample_trunk sample_branch
           bundle_no_author intent_no_author).
  - apply sample_run_reaches.
  - reflexivity.
  - reflexivity.
  - reflexivity.
Defined.

(** The command line on the sample runs: exit code 0 on the valid run;
    exit code 1 and the line for an unexpected error where the
    configuration is an array. *)
Example cmd_validate_samples :
  @_cmd_validate ascii_repr None run_valid sample_run_dir
    = (inr 0%Z, trace (@validate_run ascii_repr run_valid sample_run_dir))
  ∧ result (@_cmd_validate ascii_repr None run_config_array sample_run_dir) = inr 1%Z
  ∧ stdout (@_cmd_validate ascii_repr None run_config_array sample_run_dir)
    = ["Unexpected error during validation: 'list' object has no attribute 'get'"].
Proof. by vm_compute. Qed.

(** The number 1.0 passes the version pin, the integer 1 does not. *)
Example version_number_samples :
  @config_version ascii_repr (JObj [("version", JFloat "1.0")]) = mret "1.0"
  ∧ @config_version ascii_repr (JObj [("version", JInt 1)]) = mret "1".
Proof. by vm_compute. Qed.
